(** * pcs_scraper.utils: validators, URL regex fragments, date and time helpers

    A shallow embedding of [src/pcs_scraper/utils.py] and the properties of
    its functions.

    Conventions of the embedding
    - a Python [str] is a list of characters; a character is a code point
      below 256 (Rocq's [ascii]), so the embedding covers Latin-1 text;
    - a Python [int] is a [Z]; a [float] is only ever compared, never
      computed with, so it is an exact rational, an infinity or NaN;
    - a function that can raise returns a [result]: [Ok v] or [Raise e];
    - the standard library calls the module makes ([str.split], [int],
      [str.isnumeric], [datetime.timedelta], [strptime] with [%B], slicing)
      are modelled in [Module Py], regular expressions in [Module Re]. *)

From Stdlib Require Import String Ascii List ZArith QArith Lia Bool.
Import ListNotations.

Open Scope string_scope.
Open Scope list_scope.
Open Scope Z_scope.

(** ** Strings *)

Definition str := list ascii.

(** String literals are read as character lists. *)
Coercion list_ascii_of_string : string >-> list.

(** ** Exceptions and results *)

(** The values an exception of this module can carry. *)
Inductive pyfloat :=
| FNaN
| FNegInf
| FFin (q : Q)
| FPosInf.

Inductive num :=
| PInt (z : Z)
| PFloat (f : pyfloat).

Inductive pyval :=
| VNone
| VStr (s : str)
| VNum (n : num).

Inductive exn :=
| ValueError (msg : str)
| TypeError (msg : str)
| IndexError (msg : str)
| OverflowError (msg : str)
| ReError (msg : str)
| ParsedValueInvalidError (value : pyval)
| UserError (tag : str).

Inductive result (A : Type) :=
| Ok (a : A)
| Raise (e : exn).

Arguments Ok {A} a.
Arguments Raise {A} e.

Definition bind {A B} (m : result A) (k : A -> result B) : result B :=
  match m with
  | Ok a => k a
  | Raise e => Raise e
  end.

Notation "x <- m ;; k" := (bind m (fun x => k))
  (at level 61, m at next level, right associativity).
Notation "' p <- m ;; k" := (bind m (fun xx => let 'p := xx in k))
  (at level 61, p pattern, m at next level, right associativity).

(** A [for] loop over a list: the body updates the loop state or raises. *)
Fixpoint for_each {A S : Type} (l : list A) (st : S)
  (body : A -> S -> result S) : result S :=
  match l with
  | [] => Ok st
  | x :: rest => st' <- body x st ;; for_each rest st' body
  end.

(** ** The Python built-ins the module calls *)

Module Py.

(** [l[i]] for a non-negative or negative index. *)
Definition norm_bound (n : nat) (i : Z) : nat :=
  if i <? 0 then Z.to_nat (Z.max 0 (Z.of_nat n + i))
  else Nat.min n (Z.to_nat i).

(** [l[lo:hi]]; [None] is an omitted bound. *)
Definition slice {A} (l : list A) (lo hi : option Z) : list A :=
  let n := length l in
  let a := match lo with None => 0%nat | Some i => norm_bound n i end in
  let b := match hi with None => n | Some j => norm_bound n j end in
  firstn (b - a) (skipn a l).

Definition index {A} (l : list A) (i : Z) : result A :=
  let n := Z.of_nat (length l) in
  let j := if i <? 0 then n + i else i in
  if (j <? 0) || (n <=? j) then Raise (IndexError "index out of range")
  else match nth_error l (Z.to_nat j) with
       | Some x => Ok x
       | None => Raise (IndexError "index out of range")
       end.

Fixpoint replace_nth {A} (l : list A) (k : nat) (v : A) : list A :=
  match l, k with
  | [], _ => []
  | _ :: rest, O => v :: rest
  | x :: rest, S k' => x :: replace_nth rest k' v
  end.

(** [l[i] = v]: raises out of range, as Python does. *)
Definition set_item {A} (l : list A) (i : Z) (v : A) : result (list A) :=
  let n := Z.of_nat (length l) in
  let j := if i <? 0 then n + i else i in
  if (j <? 0) || (n <=? j)
  then Raise (IndexError "list assignment index out of range")
  else Ok (replace_nth l (Z.to_nat j) v).

Fixpoint enumerate_from {A} (k : Z) (l : list A) : list (Z * A) :=
  match l with
  | [] => []
  | x :: rest => (k, x) :: enumerate_from (k + 1) rest
  end.

Definition enumerate {A} (l : list A) : list (Z * A) := enumerate_from 0 l.

Definition len {A} (l : list A) : Z := Z.of_nat (length l).

Definition str_eqb (a b : str) : bool :=
  if list_eq_dec ascii_dec a b then true else false.

(** [x in l] for a list or tuple of strings. *)
Definition contains (l : list str) (x : str) : bool := existsb (str_eqb x) l.

(** [s.split(sep)] for a one-character separator. *)
Fixpoint split_from (cur : str) (s : str) (sep : ascii) : list str :=
  match s with
  | [] => [rev cur]
  | c :: rest =>
      if Ascii.eqb c sep then rev cur :: split_from [] rest sep
      else split_from (c :: cur) rest sep
  end.

Definition split (s : str) (sep : ascii) : list str := split_from [] s sep.

(** [sep.join(parts)] *)
Fixpoint join (sep : str) (parts : list str) : str :=
  match parts with
  | [] => []
  | [p] => p
  | p :: rest => p ++ sep ++ join sep rest
  end.

(** [[a, b] = parts] *)
Definition unpack2 {A} (parts : list A) : result (A * A) :=
  match parts with
  | [a; b] => Ok (a, b)
  | _ :: _ :: _ :: _ => Raise (ValueError "too many values to unpack")
  | _ => Raise (ValueError "not enough values to unpack")
  end.

Definition unpack3 {A} (parts : list A) : result (A * A * A) :=
  match parts with
  | [a; b; c] => Ok (a, b, c)
  | _ :: _ :: _ :: _ :: _ => Raise (ValueError "too many values to unpack")
  | _ => Raise (ValueError "not enough values to unpack")
  end.

(** *** Characters *)

Definition code (c : ascii) : Z := Z.of_N (N_of_ascii c).

Definition is_digit (c : ascii) : bool := (48 <=? code c) && (code c <=? 57).

(** [c.isnumeric()]: the characters below 256 whose Unicode numeric type is
    Decimal, Digit or Numeric: the ten digits, the superscripts two, three
    and one (178, 179, 185) and the fractions (188, 189, 190). *)
Definition char_isnumeric (c : ascii) : bool :=
  is_digit c
  || (code c =? 178) || (code c =? 179) || (code c =? 185)
  || ((188 <=? code c) && (code c <=? 190)).

(** [s.isnumeric()]: every character numeric, and at least one. *)
Definition isnumeric (s : str) : bool :=
  match s with
  | [] => false
  | _ :: _ => forallb char_isnumeric s
  end.

(** The white space [int] skips around a numeral, below 256: tab to
    carriage return and the space, and the next-line and no-break-space
    characters, which [int] reads as spaces. The separators 28 to 31 are
    white space for [str.isspace] and not for [int]. *)
Definition is_space (c : ascii) : bool :=
  ((9 <=? code c) && (code c <=? 13)) || (code c =? 32)
  || (code c =? 133) || (code c =? 160).

Definition ascii_lower (c : ascii) : ascii :=
  if (65 <=? code c) && (code c <=? 90)
  then ascii_of_N (Z.to_N (code c + 32)) else c.

Definition lower (s : str) : str := map ascii_lower s.

(** *** Integers and text *)

Definition digit_char (d : Z) : ascii := ascii_of_N (Z.to_N (48 + d)).

Definition digit_val (c : ascii) : Z := code c - 48.

Fixpoint digits_fuel (fuel : nat) (n : Z) : str :=
  match fuel with
  | O => []
  | S f =>
      (if n / 10 =? 0 then [] else digits_fuel f (n / 10))
        ++ [digit_char (n mod 10)]
  end.

(** The decimal digits of [n >= 0]; a number has no more decimal digits
    than binary ones, which bounds the recursion. *)
Definition digits (n : Z) : str := digits_fuel (S (Z.to_nat (Z.log2 n))) n.

(** [str(n)] for an [int]; the integers this module prints have far fewer
    than the [int_max_str_digits] digits above which [str] raises. *)
Definition str_of_int (n : Z) : str :=
  if n <? 0 then "-"%char :: digits (- n) else digits n.

Definition zfill (w : nat) (s : str) : str :=
  repeat "0"%char (w - length s) ++ s.

(** ["%0wd" % n] *)
Definition format_0d (w : nat) (n : Z) : str :=
  if n <? 0 then "-"%char :: zfill (w - 1) (digits (- n))
  else zfill w (digits n).

Fixpoint lstrip (s : str) : str :=
  match s with
  | [] => []
  | c :: rest => if is_space c then lstrip rest else s
  end.

(** [sys.get_int_max_str_digits()], as the interpreter starts. *)
Definition int_max_str_digits : Z := 4300.

(** The run of digits and single underscores at the head of [s]: its value,
    the number of its digits, whether it ends on an underscore, and the text
    after it. [None] at a doubled underscore. *)
Fixpoint scan_digits (acc count : Z) (prev_underscore : bool) (s : str)
  : option (Z * Z * bool * str) :=
  match s with
  | [] => Some (acc, count, prev_underscore, [])
  | c :: rest =>
      if is_digit c
      then scan_digits (10 * acc + digit_val c) (count + 1) false rest
      else if Ascii.eqb c "_"
      then if prev_underscore then None else scan_digits acc count true rest
      else Some (acc, count, prev_underscore, s)
  end.

Definition invalid_literal : exn :=
  ValueError "invalid literal for int() with base 10".

Definition exceeds_limit : exn :=
  ValueError "Exceeds the limit (4300 digits) for integer string conversion".

(** What [int] reads after the sign: digits with single underscores between
    them, then white space to the end. A numeral of more than
    [int_max_str_digits] digits is refused before what follows it is looked
    at. *)
Definition read_numeral (neg : bool) (body : str) : result Z :=
  match body with
  | "_"%char :: _ => Raise invalid_literal
  | _ =>
      match scan_digits 0 0 false body with
      | None => Raise invalid_literal
      | Some (n, count, prev_underscore, rest) =>
          if prev_underscore then Raise invalid_literal
          else if int_max_str_digits <? count then Raise exceeds_limit
          else if count =? 0 then Raise invalid_literal
          else if forallb is_space rest then Ok (if neg then - n else n)
          else Raise invalid_literal
      end
  end.

(** [int(s)] in base 10: white space, a sign, the numeral. *)
Definition int (s : str) : result Z :=
  match lstrip s with
  | "-"%char :: r => read_numeral true r
  | "+"%char :: r => read_numeral false r
  | t => read_numeral false t
  end.

(** [[f(x) for x in l]], stopping at the first exception. *)
Fixpoint map_result {A B} (f : A -> result B) (l : list A) : result (list B) :=
  match l with
  | [] => Ok []
  | x :: rest => y <- f x ;; ys <- map_result f rest ;; Ok (y :: ys)
  end.

(** *** Numbers: comparison of an [int] or [float] with another *)

Definition num_val (n : num) : pyfloat :=
  match n with
  | PInt z => FFin (inject_Z z)
  | PFloat f => f
  end.

Definition float_ltb (a b : pyfloat) : bool :=
  match a, b with
  | FNaN, _ | _, FNaN => false
  | _, FNegInf => false
  | FNegInf, _ => true
  | FPosInf, _ => false
  | FFin _, FPosInf => true
  | FFin p, FFin q => negb (Qle_bool q p)
  end.

Definition num_ltb (a b : num) : bool := float_ltb (num_val a) (num_val b).

Definition type_name (n : num) : str :=
  match n with
  | PInt _ => "int"
  | PFloat _ => "float"
  end.

(** [x < y] and [x > y] where [x] may be [None] *)
Definition lt (x : option num) (y : num) : result bool :=
  match x with
  | Some n => Ok (num_ltb n y)
  | None =>
      Raise (TypeError ("'<' not supported between instances of 'NoneType' and '"
                          ++ type_name y ++ "'"))
  end.

Definition gt (x : option num) (y : num) : result bool :=
  match x with
  | Some n => Ok (num_ltb y n)
  | None =>
      Raise (TypeError ("'>' not supported between instances of 'NoneType' and '"
                          ++ type_name y ++ "'"))
  end.

(** [len(x)] where [x] may be [None] *)
Definition len_of (x : option str) : result Z :=
  match x with
  | Some s => Ok (len s)
  | None => Raise (TypeError "object of type 'NoneType' has no len()")
  end.

Definition math_inf : num := PFloat FPosInf.
Definition neg_math_inf : num := PFloat FNegInf.

(** *** [datetime.timedelta] *)

(** A normalised duration: [0 <= seconds < 86400],
    [0 <= microseconds < 1000000], [|days| <= 999999999]. *)
Record timedelta := mk_timedelta {
  td_days : Z;
  td_seconds : Z;
  td_microseconds : Z
}.

Definition max_days : Z := 999999999.

(** Normalisation of (days, seconds, microseconds), as the constructor and
    the addition do it. *)
Definition td_normalise (d s us : Z) : result timedelta :=
  let s1 := s + us / 1000000 in
  let us1 := us mod 1000000 in
  let d1 := d + s1 / 86400 in
  let s2 := s1 mod 86400 in
  if Z.abs d1 <=? max_days then Ok (mk_timedelta d1 s2 us1)
  else Raise (OverflowError "timedelta # of days is too large").

(** [datetime.timedelta(hours=h, minutes=m, seconds=s)] *)
Definition timedelta_hms (hours minutes seconds : Z) : result timedelta :=
  td_normalise 0 (hours * 3600 + minutes * 60 + seconds) 0.

(** [a + b] *)
Definition td_add (a b : timedelta) : result timedelta :=
  td_normalise (td_days a + td_days b) (td_seconds a + td_seconds b)
    (td_microseconds a + td_microseconds b).

(** [str(tdelta)] *)
Definition td_str (t : timedelta) : str :=
  let mm := td_seconds t / 60 in
  let ss := td_seconds t mod 60 in
  let hh := mm / 60 in
  let mm := mm mod 60 in
  let s := str_of_int hh ++ ":" ++ format_0d 2 mm ++ ":" ++ format_0d 2 ss in
  let s :=
    if td_days t =? 0 then s
    else str_of_int (td_days t) ++ " day"
           ++ (if Z.abs (td_days t) =? 1 then "" else "s") ++ ", " ++ s in
  if td_microseconds t =? 0 then s
  else s ++ "." ++ format_0d 6 (td_microseconds t).

(** *** [datetime.datetime.strptime(s, "%B").month] *)

Definition month_names : list str :=
  [ "January" : str; "February" : str; "March" : str; "April" : str;
    "May" : str; "June" : str; "July" : str; "August" : str;
    "September" : str; "October" : str; "November" : str; "December" : str ].

Fixpoint find_index (x : str) (l : list str) (k : Z) : option Z :=
  match l with
  | [] => None
  | y :: rest => if str_eqb x y then Some k else find_index x rest (k + 1)
  end.

(** The month name is matched whole and without regard to case. *)
Definition strptime_B_month (s : str) : result Z :=
  match find_index (lower s) (map lower month_names) 1 with
  | Some m => Ok m
  | None => Raise (ValueError "time data does not match format '%B'")
  end.

End Py.

Arguments Py.split s sep%_char.

(** ** Regular expressions: the fragment of [re] syntax the module uses *)

Module Re.

Inductive re :=
| Empty                                    (* matches no string *)
| Eps                                      (* matches the empty string *)
| Chr (c : ascii)                          (* a literal character *)
| Cls (neg : bool) (ranges : list (ascii * ascii))  (* [a-z0-9], [^...], . *)
| Cat (r1 r2 : re)
| Alt (r1 r2 : re)
| Star (r : re).

Definition in_range (c : ascii) (rg : ascii * ascii) : bool :=
  (Py.code (fst rg) <=? Py.code c) && (Py.code c <=? Py.code (snd rg)).

Definition cls_mem (neg : bool) (ranges : list (ascii * ascii)) (c : ascii)
  : bool :=
  xorb neg (existsb (in_range c) ranges).

(** [r+], [r?], [r{n}], [r{lo,hi}], [r{lo,}] *)
Definition plus (r : re) : re := Cat r (Star r).
Definition opt (r : re) : re := Alt r Eps.

Fixpoint power (n : nat) (r : re) : re :=
  match n with
  | O => Eps
  | S O => r
  | S n' => Cat r (power n' r)
  end.

Definition seq (a b : re) : re :=
  match a, b with
  | Eps, _ => b
  | _, Eps => a
  | _, _ => Cat a b
  end.

Definition repeat_range (lo : nat) (hi : option nat) (r : re) : re :=
  match hi with
  | None => seq (power lo r) (Star r)
  | Some h => seq (power lo r) (power (h - lo) (opt r))
  end.

(** [\d] below 256 *)
Definition digit_cls : re := Cls false [("0"%char, "9"%char)].
(** [.]: any character but a newline *)
Definition dot_cls : re := Cls true [("010"%char, "010"%char)].

Definition is_alnum (c : ascii) : bool :=
  Py.is_digit c
  || ((65 <=? Py.code c) && (Py.code c <=? 90))
  || ((97 <=? Py.code c) && (Py.code c <=? 122)).

(** A decimal number at the head of [s], and what follows it. *)
Fixpoint read_nat (acc : option nat) (s : str) : option nat * str :=
  match s with
  | c :: rest =>
      if Py.is_digit c
      then read_nat
             (Some (10 * match acc with Some a => a | None => 0 end
                    + Z.to_nat (Py.digit_val c))%nat) rest
      else (acc, s)
  | [] => (acc, s)
  end.

(** The items of a character class up to the closing bracket. *)
Fixpoint read_class (fuel : nat) (acc : list (ascii * ascii)) (s : str)
  : option (list (ascii * ascii) * str) :=
  match fuel with
  | O => None
  | S f =>
      match s with
      | "]"%char :: rest => Some (rev acc, rest)
      | "\"%char :: "d"%char :: rest =>
          read_class f (("0"%char, "9"%char) :: acc) rest
      | "\"%char :: c :: rest =>
          if is_alnum c then None else read_class f ((c, c) :: acc) rest
      | lo :: "-"%char :: hi :: rest =>
          if Ascii.eqb hi "]" then read_class f ((lo, lo) :: acc) ("-"%char :: hi :: rest)
          else if Py.code lo <=? Py.code hi
               then read_class f ((lo, hi) :: acc) rest
               else None
      | c :: rest => read_class f ((c, c) :: acc) rest
      | [] => None
      end
  end.

(** An optional quantifier after an atom; a second quantifier is refused. *)
Definition read_quant (a : re) (s : str) : option (re * str) :=
  let once (r : re) (rest : str) :=
    match rest with
    | "*"%char :: _ | "+"%char :: _ | "?"%char :: _ | "{"%char :: _ => None
    | _ => Some (r, rest)
    end in
  match s with
  | "*"%char :: rest => once (Star a) rest
  | "+"%char :: rest => once (plus a) rest
  | "?"%char :: rest => once (opt a) rest
  | "{"%char :: rest =>
      match read_nat None rest with
      | (Some lo, "}"%char :: rest') => once (power lo a) rest'
      | (Some lo, ","%char :: rest') =>
          match read_nat None rest' with
          | (hi, "}"%char :: rest'') =>
              match hi with
              | Some h =>
                  if (h <? lo)%nat then None
                  else once (repeat_range lo hi a) rest''
              | None => once (repeat_range lo hi a) rest''
              end
          | _ => None
          end
      | _ => None
      end
  | _ => Some (a, s)
  end.

(** Recursive descent: alternatives, sequences, atoms. Each returns the
    expression read and the rest of the pattern. *)
Fixpoint read_alt (fuel : nat) (s : str) : option (re * str) :=
  match fuel with
  | O => None
  | S f =>
      match read_seq f s with
      | Some (r1, "|"%char :: rest) =>
          match read_alt f rest with
          | Some (r2, rest') => Some (Alt r1 r2, rest')
          | None => None
          end
      | other => other
      end
  end
with read_seq (fuel : nat) (s : str) : option (re * str) :=
  match fuel with
  | O => None
  | S f =>
      match s with
      | [] | "|"%char :: _ | ")"%char :: _ => Some (Eps, s)
      | _ =>
          match read_atom f s with
          | Some (a, rest) =>
              match read_quant a rest with
              | Some (q, rest') =>
                  match read_seq f rest' with
                  | Some (r, rest'') => Some (seq q r, rest'')
                  | None => None
                  end
              | None => None
              end
          | None => None
          end
      end
  end
with read_atom (fuel : nat) (s : str) : option (re * str) :=
  match fuel with
  | O => None
  | S f =>
      match s with
      | "("%char :: "?"%char :: _ => None
      | "("%char :: rest =>
          match read_alt f rest with
          | Some (r, ")"%char :: rest') => Some (r, rest')
          | _ => None
          end
      | "["%char :: "^"%char :: rest =>
          match read_class (S (length rest)) [] rest with
          | Some (ranges, rest') => Some (Cls true ranges, rest')
          | None => None
          end
      | "["%char :: rest =>
          match read_class (S (length rest)) [] rest with
          | Some (ranges, rest') => Some (Cls false ranges, rest')
          | None => None
          end
      | "\"%char :: "d"%char :: rest => Some (digit_cls, rest)
      | "\"%char :: c :: rest =>
          if is_alnum c then None else Some (Chr c, rest)
      | "."%char :: rest => Some (dot_cls, rest)
      | c :: rest =>
          if existsb (Ascii.eqb c)
               ["*"; "+"; "?"; "{"; ")"; "|"; "^"; "$"; "\"]%char
          then None else Some (Chr c, rest)
      | [] => None
      end
  end.

(** [re.compile(pattern)]; [None] stands for a pattern that is malformed or
    outside the fragment. *)
Definition compile (pattern : str) : option re :=
  match read_alt (3 * length pattern + 3) pattern with
  | Some (r, []) => Some r
  | _ => None
  end.

(** Matching by derivatives. *)
Fixpoint nullable (r : re) : bool :=
  match r with
  | Empty => false
  | Eps => true
  | Chr _ => false
  | Cls _ _ => false
  | Cat r1 r2 => nullable r1 && nullable r2
  | Alt r1 r2 => nullable r1 || nullable r2
  | Star _ => true
  end.

Fixpoint deriv (c : ascii) (r : re) : re :=
  match r with
  | Empty => Empty
  | Eps => Empty
  | Chr d => if Ascii.eqb c d then Eps else Empty
  | Cls neg ranges => if cls_mem neg ranges c then Eps else Empty
  | Cat r1 r2 =>
      if nullable r1 then Alt (Cat (deriv c r1) r2) (deriv c r2)
      else Cat (deriv c r1) r2
  | Alt r1 r2 => Alt (deriv c r1) (deriv c r2)
  | Star r1 => Cat (deriv c r1) (Star r1)
  end.

Fixpoint accepts (r : re) (s : str) : bool :=
  match s with
  | [] => nullable r
  | c :: rest => accepts (deriv c r) rest
  end.

(** [re.fullmatch(pattern, string) is not None] *)
Definition fullmatch (pattern : str) (s : str) : result bool :=
  match compile pattern with
  | Some r => Ok (accepts r s)
  | None => Raise (ReError "bad or unsupported pattern")
  end.

(** The strings an expression denotes. *)
Inductive Matches : re -> str -> Prop :=
| MEps : Matches Eps []
| MChr c : Matches (Chr c) [c]
| MCls neg ranges c : cls_mem neg ranges c = true -> Matches (Cls neg ranges) [c]
| MCat r1 r2 s1 s2 : Matches r1 s1 -> Matches r2 s2 -> Matches (Cat r1 r2) (s1 ++ s2)
| MAltL r1 r2 s : Matches r1 s -> Matches (Alt r1 r2) s
| MAltR r1 r2 s : Matches r2 s -> Matches (Alt r1 r2) s
| MStarNil r : Matches (Star r) []
| MStarApp r s1 s2 : Matches r s1 -> Matches (Star r) s2 -> Matches (Star r) (s1 ++ s2).

End Re.

(** ** The module's constants and functions *)

(** [class reg]: regex of common procyclingstats URL parts *)
Module reg.

Definition base_url : str := "(https:\/\/www.procyclingstats.com\/+)".
Definition url_str : str := "(\/+([a-zA-Z]+-)*([a-zA-Z]+))".
Definition year : str := "(\/+\d{4})".
Definition stage : str :=
  list_ascii_of_string "(\/+(((stage-([1-9]([0-9])?([a-z])?)|prologue)"
    ++ list_ascii_of_string "(\/gc|-points|-kom|-youth|-teams)?)|gc))".
Definition result : str := "(\/+result)".
Definition overview : str := "(\/+overview)".
Definition startlist : str := "(\/+startlist)".
Definition team_url_str : str := "(\/(([a-zA-Z0-9]+-)+)\d{4,5})".
Definition anything : str := "(\/+.*)".

(** The table, by attribute name. *)
Definition table : list (str * str) :=
  [ ("base_url" : str, base_url); ("url_str" : str, url_str);
    ("year" : str, year); ("stage" : str, stage); ("result" : str, result);
    ("overview" : str, overview); ("startlist" : str, startlist);
    ("team_url_str" : str, team_url_str); ("anything" : str, anything) ].

End reg.

(** [parse_table_fields_args(args, available_fields)] *)
Definition parse_table_fields_args (args available_fields : list str)
  : result (list str) :=
  _ <- for_each args tt (fun arg _ =>
         if negb (Py.contains available_fields arg)
         then Raise (ValueError "Invalid field argument")
         else Ok tt) ;;
  match args with
  | _ :: _ => Ok args
  | [] => Ok available_fields
  end.

Section Validators.

(** [re.fullmatch(pattern, string) is not None]. The validators are stated
    for any regex engine; [Re.fullmatch] is the one of this file. *)
Variable re_fullmatch : str -> str -> result bool.

Definition is_none {A} (x : option A) : bool :=
  match x with
  | None => true
  | Some _ => false
  end.

(** Truth value of [options]: neither [None] nor empty. *)
Definition truthy_options (options : option (list str)) : bool :=
  match options with
  | Some (_ :: _) => true
  | _ => false
  end.

(** [string in options], where [string] may be [None], which equals no
    string. *)
Definition in_options (string : option str) (options : option (list str))
  : bool :=
  match string, options with
  | Some s, Some l => Py.contains l s
  | _, _ => false
  end.

Definition value_of_str (string : option str) : pyval :=
  match string with
  | Some s => VStr s
  | None => VNone
  end.

Definition value_of_number (n : option num) : pyval :=
  match n with
  | Some x => VNum x
  | None => VNone
  end.

(** The string argument of [re.fullmatch]. *)
Definition fullmatch_value (pattern : str) (string : option str)
  : result bool :=
  match string with
  | Some s => re_fullmatch pattern s
  | None => Raise (TypeError "expected string or bytes-like object")
  end.

(** [validate_string(string, min_length, max_length, regex, options,
    can_be_none, error)] *)
Definition validate_string (string : option str)
  (min_length max_length : num) (regex : str)
  (options : option (list str)) (can_be_none : bool) (error : option exn)
  : result unit :=
  let valid := true in
  let valid :=
    if negb can_be_none && is_none string then false else valid in
  let valid :=
    if truthy_options options && negb (in_options string options)
    then false else valid in
  n <- Py.len_of string ;;
  let valid :=
    if Py.num_ltb (PInt n) min_length || Py.num_ltb max_length (PInt n)
    then false else valid in
  valid <-
    match regex with
    | _ :: _ =>
        let regex :=
          filter (fun char =>
                    negb (existsb (Ascii.eqb char) ["010"; " "]%char)) regex in
        let formatted_regex := Py.join "" (map (fun c => [c]) regex) in
        m <- fullmatch_value formatted_regex string ;;
        Ok (if negb m then false else valid)
    | [] => Ok valid
    end ;;
  if negb valid then
    match error with
    | None => Raise (ParsedValueInvalidError (value_of_str string))
    | Some e => Raise e
    end
  else Ok tt.

(** [validate_number(number, min_, max_, can_be_none, error)] *)
Definition validate_number (number : option num) (min_ max_ : num)
  (can_be_none : bool) (error : option exn) : result unit :=
  let valid := true in
  let valid :=
    if negb can_be_none && is_none number then false else valid in
  above <- Py.gt number max_ ;;
  out <- (if above then Ok true else Py.lt number min_) ;;
  let valid := if out then false else valid in
  if negb valid then
    match error with
    | None => Raise (ParsedValueInvalidError (value_of_number number))
    | Some e => Raise e
    end
  else Ok tt.

End Validators.

(** [get_day_month(str_with_date)] *)
Definition get_day_month (str_with_date : str) : result (str * str) :=
  '(day, month) <-
    for_each (Py.enumerate (Py.slice str_with_date None (Some (-4))))
      (([] : str), ([] : str))
      (fun '(i, char) '(day, month) =>
         if Py.isnumeric (Py.slice str_with_date (Some i) (Some (i + 2)))
            && Py.isnumeric
                 (Py.slice str_with_date (Some (i + 3)) (Some (i + 5)))
         then
           c <- Py.index str_with_date (i + 2) ;;
           if Ascii.eqb c "/" then
             Py.unpack2
               (Py.split (Py.slice str_with_date (Some i) (Some (i + 5))) "/")
           else if Ascii.eqb c "-" then
             Py.unpack2
               (Py.split (Py.slice str_with_date (Some i) (Some (i + 5))) "-")
           else Ok (day, month)
         else Ok (day, month)) ;;
  if Py.isnumeric day && Py.isnumeric month then Ok (day, month)
  else
    Raise (ValueError
             "Given string doesn't contain day and month in wanted format").

(** [parse_table_fields_args] is above; [parse_select_menu] walks an HTML
    tree of [requests_html] and is not embedded. *)

(** [convert_date(date)] *)
Definition convert_date (date : str) : result str :=
  '(day, month, year) <- Py.unpack3 (Py.split date " ") ;;
  month <- Py.strptime_B_month month ;;
  let month :=
    if month <? 10 then "0" ++ Py.str_of_int month else Py.str_of_int month in
  Ok (Py.join "-" [year; month; day]).

(** [timedelta_to_time(tdelta)] *)
Definition timedelta_to_time (tdelta : Py.timedelta) : result str :=
  let time := Py.split (Py.td_str tdelta) " " in
  if 1 <? Py.len time then
    days <- Py.index time 0 ;;
    time <- Py.index time 2 ;;
    h <- Py.index (Py.split time ":") 0 ;;
    h <- Py.int h ;;
    d <- Py.int days ;;
    let hours := h + 24 * d in
    let minutes_seconds :=
      Py.join ":" (Py.slice (Py.split time ":") (Some 1) None) in
    Ok (Py.str_of_int hours ++ ":" ++ minutes_seconds)
  else
    t0 <- Py.index time 0 ;;
    hours <- Py.index (Py.split t0 ":") 0 ;;
    t0 <- Py.index time 0 ;;
    let minutes_seconds :=
      Py.join ":" (Py.slice (Py.split t0 ":") (Some 1) None) in
    Ok (hours ++ ":" ++ minutes_seconds).

(** [time_to_timedelta(time)] *)
Definition time_to_timedelta (time : str) : result Py.timedelta :=
  values <- Py.map_result Py.int (Py.split time ":") ;;
  '(hours, minutes, seconds) <- Py.unpack3 values ;;
  Py.timedelta_hms hours minutes seconds.

(** [format_time(time)]. The loop runs over a copy of the last two
    components, made before it starts, and writes into the list itself at
    the position in the copy. *)
Definition format_time (time : str) : result str :=
  let time := Py.split time ":" in
  time <-
    for_each (Py.enumerate (Py.slice time (Some (-2)) None)) time
      (fun '(i, time_val) time =>
         if Py.len time_val =? 1
         then Py.set_item time i ("0" ++ time_val)
         else Ok time) ;;
  let time_str := Py.join ":" time in
  let time_str := if Py.len time =? 2 then "0:" ++ time_str else time_str in
  Ok time_str.

(** [add_time(time1, time2)] *)
Definition add_time (time1 time2 : str) : result str :=
  t1 <- format_time time1 ;;
  tdelta1 <- time_to_timedelta t1 ;;
  t2 <- format_time time2 ;;
  tdelta2 <- time_to_timedelta t2 ;;
  tdelta <- Py.td_add tdelta1 tdelta2 ;;
  timedelta_to_time tdelta.

(** ** Definitions the statements use *)

(** [c] occurs in [s]. *)
Definition has_char (c : ascii) (s : str) : bool := existsb (Ascii.eqb c) s.

(** Time addition as the specification words it: normalise both operands,
    convert each to a duration, sum the durations, render the sum. *)
Definition add_time_spec (time1 time2 : str) : result str :=
  t1 <- format_time time1 ;;
  t2 <- format_time time2 ;;
  tdelta1 <- time_to_timedelta t1 ;;
  tdelta2 <- time_to_timedelta t2 ;;
  tdelta <- Py.td_add tdelta1 tdelta2 ;;
  timedelta_to_time tdelta.

(** One component of a time, padded as the comment of [format_time] says:
    a single character gets a leading zero. *)
Definition pad_component (v : str) : str :=
  if Py.len v =? 1 then "0" ++ v else v.

(** A number below 100 written with exactly two digits. *)
Definition two_digits (n : Z) : str :=
  [Py.digit_char (n / 10); Py.digit_char (n mod 10)].

(** The body of the loop of [parse_table_fields_args]. *)
Definition field_check (available_fields : list str) (arg : str) (_ : unit)
  : result unit :=
  if negb (Py.contains available_fields arg)
  then Raise (ValueError "Invalid field argument")
  else Ok tt.

(** The order of the numbers: the usual order of the rationals extended by
    the two infinities; NaN is below, above and equal to nothing. *)
Definition float_lt (a b : pyfloat) : Prop :=
  match a, b with
  | FFin p, FFin q => (p < q)%Q
  | FNegInf, FFin _ | FNegInf, FPosInf | FFin _, FPosInf => True
  | _, _ => False
  end.

Definition float_le (a b : pyfloat) : Prop :=
  match a, b with
  | FFin p, FFin q => (p <= q)%Q
  | FNegInf, FNegInf | FPosInf, FPosInf => True
  | FNegInf, FFin _ | FNegInf, FPosInf | FFin _, FPosInf => True
  | _, _ => False
  end.

Definition num_lt (a b : num) : Prop := float_lt (Py.num_val a) (Py.num_val b).
Definition num_le (a b : num) : Prop := float_le (Py.num_val a) (Py.num_val b).

(** What a validator raises for an invalid value: the caller's error
    object when one is given, else [ParsedValueInvalidError] carrying the
    value. *)
Definition invalid_value (error : option exn) (value : pyval) : exn :=
  match error with
  | Some e => e
  | None => ParsedValueInvalidError value
  end.

(** A date window at offset [i] of [s]: numeric characters at [i], [i+1],
    [i+3] and [i+4], and a slash or a hyphen at [i+2]. *)
Definition numeric_at (s : str) (i : nat) : bool :=
  match nth_error s i with
  | Some c => Py.char_isnumeric c
  | None => false
  end.

Definition separator_at (s : str) (i : nat) : bool :=
  match nth_error s i with
  | Some c => Ascii.eqb c "/" || Ascii.eqb c "-"
  | None => false
  end.

Definition date_window (s : str) (i : nat) : bool :=
  numeric_at s i && numeric_at s (i + 1) && separator_at s (i + 2)
  && numeric_at s (i + 3) && numeric_at s (i + 4).

(** The (day, month) pair of the window at offset [i]. *)
Definition window_pair (s : str) (i : nat) : str * str :=
  (firstn 2 (skipn i s), firstn 2 (skipn (i + 3) s)).

Definition no_date_error : exn :=
  ValueError "Given string doesn't contain day and month in wanted format".

(** The number a string of decimal digits denotes, read left to right. *)
Definition decimal_value (acc : Z) (s : str) : Z :=
  fold_left (fun a c => 10 * a + Py.digit_val c) s acc.

(** The well-formed text ["H:MM:SS"] of [h] hours, [m] minutes and [s]
    seconds: the hours in decimal, the minutes and the seconds with two
    digits each. *)
Definition hms_text (h m s : Z) : str :=
  Py.str_of_int h ++ ":" ++ two_digits m ++ ":" ++ two_digits s.

(** [n] path separators. *)
Definition slashes (n : nat) : str := repeat "/"%char n.

(** A string matches a fragment of the table: [re.fullmatch] finds a
    match. *)
Definition fragment_matches (pattern s : str) : Prop :=
  Re.fullmatch pattern s = Ok true.

(** A decimal numeral without sign or leading zeros. *)
Definition canonical_numeral (s : str) : bool :=
  forallb Py.is_digit s
  && match s with
     | [] => false
     | [_] => true
     | c :: _ :: _ => negb (Ascii.eqb c "0")
     end.

(** Two digits that denote a number from 00 to 59. *)
Definition sexagesimal (s : str) : bool :=
  (length s =? 2)%nat && forallb Py.is_digit s && (decimal_value 0 s <? 60).

(** A well-formed ["H:MM:SS"]: three components between colons, the hours a
    decimal numeral, the minutes and the seconds two digits each in
    00-59. *)
Definition well_formed_hms (t : str) : bool :=
  match Py.split t ":" with
  | [hs; ms; ss] => canonical_numeral hs && sexagesimal ms && sexagesimal ss
  | _ => false
  end.

(** The hours a text ["H:MM:SS"] gives. *)
Definition hours_of (t : str) : Z :=
  match Py.split t ":" with
  | hs :: _ => decimal_value 0 hs
  | [] => 0
  end.

(** The components of a time after the loop of [format_time]: the first
    two positions take the padded last two components where these are
    single characters. *)
Definition format_parts (time : list str) : list str :=
  match Py.slice time (Some (-2)) None, time with
  | [x], c0 :: rest => (if Py.len x =? 1 then "0" ++ x else c0) :: rest
  | [x; y], c0 :: c1 :: rest =>
      (if Py.len x =? 1 then "0" ++ x else c0)
        :: (if Py.len y =? 1 then "0" ++ y else c1) :: rest
  | _, _ => time
  end.

(** The fraction of a second [str(timedelta)] appends when the
    microseconds are not zero. *)
Definition fraction_text (us : Z) : str :=
  if us =? 0 then [] else "." ++ Py.format_0d 6 us.

(** The duration of a [timedelta] in seconds, microseconds apart. *)
Definition total_seconds (t : Py.timedelta) : Z :=
  86400 * Py.td_days t + Py.td_seconds t.

(** [time] is three components between colons, and [int] reads them as
    [hours], [minutes] and [seconds]. *)
Definition three_numerals (time : str) (hours minutes seconds : Z) : Prop :=
  exists a b c,
    Py.split time ":" = [a; b; c]
    /\ Py.int a = Ok hours /\ Py.int b = Ok minutes /\ Py.int c = Ok seconds.

(** The pattern [validate_string] gives to the regex engine: the regex
    without its spaces and newlines. *)
Definition blank_free (regex : str) : str :=
  filter (fun char => negb (existsb (Ascii.eqb char) ["010"; " "]%char)) regex.

(** The constraints of [validate_string] on a string, the regex apart: it
    is one of the options when there are any, and its length is neither
    below the minimum nor above the maximum. *)
Definition string_constraints (s : str) (min_length max_length : num)
  (options : option (list str)) : Prop :=
  match options with
  | Some (x :: l) => In s (x :: l)
  | _ => True
  end
  /\ ~ num_lt (PInt (Py.len s)) min_length
  /\ ~ num_lt max_length (PInt (Py.len s)).

(** ** [parse_select_menu] *)

(** An element of the parsed page as [requests_html] gives it: its
    attributes and its text. *)
Record element := mk_element {
  attrs : list (str * str);
  text : str
}.

(** A [dict] from strings to strings, in insertion order. *)
Definition dict := list (str * str).

(** The outcome of code whose only exception is the [KeyError] of a
    missing key. *)
Inductive keyed (A : Type) :=
| Found (a : A)
| KeyError (key : str).

Arguments Found {A} a.
Arguments KeyError {A} key.

(** [d[key]] *)
Fixpoint get_item (d : dict) (key : str) : keyed str :=
  match d with
  | [] => KeyError key
  | (k, v) :: rest => if Py.str_eqb k key then Found v else get_item rest key
  end.

Section SelectMenu.

(** The parsed HTML and its [find(selector)], which lists the elements
    that match in document order. *)
Variable html : Type.
Variable find : html -> str -> list element.

(** The loop of [parse_select_menu] over the options left, with the list
    built so far. *)
Fixpoint select_loop (options : list element) (parsed_select : list dict)
  : keyed (list dict) :=
  match options with
  | [] => Found parsed_select
  | option :: rest =>
      match get_item (attrs option) "value" with
      | Found value =>
          select_loop rest
            (parsed_select
               ++ [[("value" : str, value); ("text" : str, text option)]])
      | KeyError key => KeyError key
      end
  end.

(** [parse_select_menu(select_html)] *)
Definition parse_select_menu (select_html : html) : keyed (list dict) :=
  select_loop (find select_html "option") [].

End SelectMenu.

(** The entry of the menu an option gives. *)
Definition menu_entry (option : element) (entry : dict) : Prop :=
  exists value,
    get_item (attrs option) "value" = Found value
    /\ entry = [("value" : str, value); ("text" : str, text option)].

(** * Properties *)

(** ** Strings *)

Lemma str_eqb_eq (a b : str) : Py.str_eqb a b = true <-> a = b.
Proof.
  unfold Py.str_eqb; destruct (list_eq_dec ascii_dec a b); split; congruence.
Qed.

Lemma contains_In (l : list str) (x : str) : Py.contains l x = true <-> In x l.
Proof.
  unfold Py.contains; rewrite existsb_exists; split.
  - intros (y & Hy & E); apply str_eqb_eq in E; subst; assumption.
  - intros H; exists x; split; [assumption | apply str_eqb_eq; reflexivity].
Qed.

Lemma has_char_false_app c a b :
  has_char c (a ++ b) = false <-> has_char c a = false /\ has_char c b = false.
Proof.
  unfold has_char; rewrite existsb_app, orb_false_iff; tauto.
Qed.

Lemma split_from_no_sep cur a sep :
  has_char sep a = false -> Py.split_from cur a sep = [rev cur ++ a].
Proof.
  revert cur; induction a as [|c a IH]; intros cur H; simpl.
  - now rewrite app_nil_r.
  - simpl in H; apply orb_false_iff in H as [Hc Ha].
    rewrite Ascii.eqb_sym, Hc, IH by assumption.
    simpl; now rewrite <- app_assoc.
Qed.

Lemma split_from_sep cur a b sep :
  has_char sep a = false ->
  Py.split_from cur (a ++ sep :: b) sep = (rev cur ++ a) :: Py.split_from [] b sep.
Proof.
  revert cur; induction a as [|c a IH]; intros cur H; simpl.
  - now rewrite Ascii.eqb_refl, app_nil_r.
  - simpl in H; apply orb_false_iff in H as [Hc Ha].
    rewrite Ascii.eqb_sym, Hc, IH by assumption.
    simpl; now rewrite <- app_assoc.
Qed.

Lemma split_no_sep a sep : has_char sep a = false -> Py.split a sep = [a].
Proof. intros H; unfold Py.split; now rewrite split_from_no_sep. Qed.

Lemma split_sep a b sep :
  has_char sep a = false -> Py.split (a ++ sep :: b) sep = a :: Py.split b sep.
Proof. intros H; unfold Py.split; now rewrite split_from_sep. Qed.

(** ** Field selection *)

Lemma field_loop args available_fields :
  match for_each args tt (field_check available_fields) with
  | Ok _ => forall a, In a args -> In a available_fields
  | Raise e =>
      e = ValueError "Invalid field argument"
      /\ exists a, In a args /\ ~ In a available_fields
  end.
Proof.
  induction args as [|x args IH]; simpl.
  - intros a [].
  - unfold field_check at 1.
    destruct (Py.contains available_fields x) eqn:E; simpl.
    + apply contains_In in E.
      destruct (for_each args tt (field_check available_fields)) as [[]|e].
      * intros a [<-|Ha]; auto.
      * destruct IH as (-> & a & Ha & Hn); split; [reflexivity|].
        exists a; auto.
    + split; [reflexivity|]. exists x; split; [now left|].
      intros Hin; apply contains_In in Hin; congruence.
Qed.

(** C6. [parse_table_fields_args] either returns or raises the
    invalid-argument error. It raises exactly when some requested name is
    not among the legal names. When it returns, every requested name is
    legal and the result is the requested names in their order if there is
    one, and all the legal names in their order if the request is empty. *)
Theorem parse_table_fields_args_spec (args available_fields : list str) :
  match parse_table_fields_args args available_fields with
  | Ok fields =>
      (forall a, In a args -> In a available_fields)
      /\ fields = match args with [] => available_fields | _ :: _ => args end
  | Raise e =>
      e = ValueError "Invalid field argument"
      /\ exists a, In a args /\ ~ In a available_fields
  end.
Proof.
  unfold parse_table_fields_args.
  pose proof (field_loop args available_fields) as H.
  unfold field_check in H.
  destruct (for_each args tt _) as [[]|e]; simpl.
  - destruct args; simpl; auto.
  - exact H.
Qed.

(** ** Loose time normalisation *)

Lemma set_item_in_range {A} (l : list A) (i : Z) (v : A) :
  0 <= i < Py.len l ->
  Py.set_item l i v = Ok (Py.replace_nth l (Z.to_nat i) v).
Proof.
  unfold Py.set_item, Py.len; intros H.
  destruct (i <? 0) eqn:E; [lia|].
  replace ((i <? 0) || (Z.of_nat (length l) <=? i)) with false; [reflexivity|].
  symmetry; apply orb_false_iff; split; lia.
Qed.

Lemma length_replace_nth {A} (l : list A) k v :
  length (Py.replace_nth l k v) = length l.
Proof.
  revert k; induction l as [|x l IH]; intros [|k]; simpl; auto.
Qed.

Lemma length_slice_le {A} (l : list A) lo hi :
  (length (Py.slice l lo hi) <= length l)%nat.
Proof.
  unfold Py.slice; rewrite length_firstn, length_skipn; lia.
Qed.

(** The padding loop never leaves the list: it runs over at most as many
    positions as the list has, so every assignment is in range. *)
Lemma pad_loop_total (body : Z * str -> list str -> result (list str))
  (vals : list str) :
  (forall i v st,
      body (i, v) st
      = if Py.len v =? 1 then Py.set_item st i ("0" ++ v) else Ok st) ->
  forall k st,
    0 <= k -> k + Py.len vals <= Py.len st ->
    exists st',
      for_each (Py.enumerate_from k vals) st body = Ok st'
      /\ length st' = length st.
Proof.
  intros Hbody; induction vals as [|v vals IH]; intros k st Hk Hlen; simpl.
  - exists st; auto.
  - unfold Py.len in *; simpl length in Hlen.
    rewrite Hbody.
    destruct (Z.of_nat (length v) =? 1).
    + rewrite set_item_in_range by (unfold Py.len; lia). simpl.
      destruct (IH (k + 1) (Py.replace_nth st (Z.to_nat k) ("0" ++ v)))
        as (st' & E & L); [lia | rewrite length_replace_nth; lia |].
      exists st'; rewrite length_replace_nth in L; auto.
    + simpl. destruct (IH (k + 1) st) as (st' & E & L); [lia | lia |].
      exists st'; auto.
Qed.

Lemma format_time_total (time : str) : exists t, format_time time = Ok t.
Proof.
  unfold format_time.
  destruct (pad_loop_total
              (fun '(i, time_val) time =>
                 if Py.len time_val =? 1
                 then Py.set_item time i ("0" ++ time_val)
                 else Ok time)
              (Py.slice (Py.split time ":") (Some (-2)) None)
              (fun i v st => eq_refl) 0 (Py.split time ":"))
    as (st' & E & _).
  - lia.
  - pose proof (length_slice_le (Py.split time ":") (Some (-2)) None).
    unfold Py.len; lia.
  - unfold Py.enumerate; rewrite E; simpl; eauto.
Qed.

(** With two components the loop pads both in place and ["0:"] is put in
    front. *)
Lemma format_time_two_components (m s : str) :
  has_char ":" m = false -> has_char ":" s = false ->
  format_time (m ++ ":" ++ s)
  = Ok ("0:" ++ pad_component m ++ ":" ++ pad_component s).
Proof.
  intros Hm Hs; unfold format_time, pad_component.
  change (m ++ ":" ++ s) with (m ++ ":"%char :: s).
  rewrite split_sep, split_no_sep by assumption.
  change (Py.slice [m; s] (Some (-2)) None) with [m; s].
  cbn [Py.enumerate Py.enumerate_from for_each].
  destruct (Py.len m =? 1); destruct (Py.len s =? 1); reflexivity.
Qed.

(** With three components the positions of the copy are off by one in the
    list: padded minutes land on the hours, padded seconds on the minutes,
    and the seconds are never padded. *)
Lemma format_time_three_components (h m s : str) :
  has_char ":" h = false -> has_char ":" m = false -> has_char ":" s = false ->
  format_time (h ++ ":" ++ m ++ ":" ++ s)
  = Ok (Py.join ":"
          [ if Py.len m =? 1 then "0" ++ m else h;
            if Py.len s =? 1 then "0" ++ s else m;
            s ]).
Proof.
  intros Hh Hm Hs; unfold format_time.
  change (h ++ ":" ++ m ++ ":" ++ s) with (h ++ ":"%char :: m ++ ":"%char :: s).
  rewrite split_sep, split_sep, split_no_sep by assumption.
  change (Py.slice [h; m; s] (Some (-2)) None) with [m; s].
  cbn [Py.enumerate Py.enumerate_from for_each].
  destruct (Py.len m =? 1); destruct (Py.len s =? 1); reflexivity.
Qed.

Example format_time_5_9 : format_time "5:9" = Ok ("0:05:09" : str).
Proof. reflexivity. Qed.

Example format_time_45_12_30 : format_time "45:12:30" = Ok ("45:12:30" : str).
Proof. reflexivity. Qed.

(** C3. At ["1:2:30"], which has an hour component and a one-digit minute,
    [format_time] returns ["02:2:30"]: the padded minute has replaced the
    hour and the minute itself is left unpadded. Padding only the last two
    components and leaving the hour alone would give ["1:02:30"]. *)
Theorem format_time_overwrites_hours :
  format_time "1:2:30" = Ok ("02:2:30" : str)
  /\ format_time "1:2:30" <> Ok ("1:02:30" : str).
Proof. split; [reflexivity | discriminate]. Qed.

(** ** Time addition *)

Example add_time_1_30_0_45 : add_time "1:30" "0:45" = Ok ("0:02:15" : str).
Proof. reflexivity. Qed.

(** C5. [add_time] is the composition the specification describes:
    normalise each operand with [format_time], convert each with
    [time_to_timedelta], add the two durations and render the sum with
    [timedelta_to_time], with the same result or the same exception. The
    source converts the first operand before it normalises the second; the
    order does not show because [format_time] never raises. In particular
    [add_time("1:30", "0:45")] is ["0:02:15"]. *)
Theorem add_time_is_composition :
  (forall time1 time2 : str, add_time time1 time2 = add_time_spec time1 time2)
  /\ add_time "1:30" "0:45" = Ok ("0:02:15" : str).
Proof.
  split; [|reflexivity].
  intros time1 time2; unfold add_time, add_time_spec.
  destruct (format_time time1) as [t1|e1]; simpl; [|reflexivity].
  destruct (format_time_total time2) as (t2 & ->); simpl.
  destruct (time_to_timedelta t1); reflexivity.
Qed.

(** ** Free-text dates *)

(** C7. For a date [day month year] whose parts are separated by single
    spaces (so neither [day] nor [year] holds a space) and whose month is
    the [k+1]-th full English month name, [convert_date] returns the year,
    the month number written with two digits and the day exactly as given,
    joined by hyphens. *)
Theorem convert_date_spec (day year name : str) (k : nat) :
  has_char " " day = false ->
  has_char " " year = false ->
  nth_error Py.month_names k = Some name ->
  convert_date (day ++ " " ++ name ++ " " ++ year)
  = Ok (year ++ "-" ++ two_digits (Z.of_nat k + 1) ++ "-" ++ day).
Proof.
  intros Hday Hyear Hname; unfold convert_date.
  change (day ++ " " ++ name ++ " " ++ year)
    with (day ++ " "%char :: name ++ " "%char :: year).
  rewrite (split_sep day _ " " Hday).
  do 12 (destruct k as [|k];
         [ injection Hname as <-;
           rewrite split_sep by reflexivity;
           rewrite (split_no_sep year " " Hyear);
           reflexivity | ]).
  destruct k; discriminate.
Qed.

Lemma convert_date_spec_witness :
  has_char " " "30" = false
  /\ has_char " " "2022" = false
  /\ nth_error Py.month_names 6 = Some ("July" : str)
  /\ convert_date "30 July 2022" = Ok ("2022-07-30" : str).
Proof.
  do 3 (split; [reflexivity|]).
  exact (convert_date_spec "30" "2022" "July" 6 eq_refl eq_refl eq_refl).
Defined.

(** ** Validators *)

Lemma float_ltb_lt (a b : pyfloat) : Py.float_ltb a b = true <-> float_lt a b.
Proof.
  destruct a as [| |p|], b as [| |q|]; simpl;
    try (split; [discriminate | contradiction]);
    try (split; auto; fail).
  rewrite negb_true_iff, <- not_true_iff_false, Qle_bool_iff.
  split; [apply Qnot_le_lt | apply Qlt_not_le].
Qed.

Lemma num_ltb_lt (a b : num) : Py.num_ltb a b = true <-> num_lt a b.
Proof. apply float_ltb_lt. Qed.

Lemma float_le_not_lt (a b : pyfloat) : float_le a b -> ~ float_lt b a.
Proof.
  destruct a as [| |p|], b as [| |q|]; simpl; auto.
  apply Qle_not_lt.
Qed.

(** C8. For a number that is not [None], whatever the bounds, the
    nullability flag and the error object: [validate_number] returns
    normally when the number lies between the bounds, bounds included; it
    raises the caller's error object, or [ParsedValueInvalidError] carrying
    the number when none is given, exactly when the number is below [min_]
    or above [max_]; and it does nothing else. *)
Theorem validate_number_spec (number min_ max_ : num) (can_be_none : bool)
  (error : option exn) :
  (num_le min_ number /\ num_le number max_ ->
   validate_number (Some number) min_ max_ can_be_none error = Ok tt)
  /\ (validate_number (Some number) min_ max_ can_be_none error
      = Raise (invalid_value error (VNum number))
      <-> num_lt number min_ \/ num_lt max_ number)
  /\ (validate_number (Some number) min_ max_ can_be_none error = Ok tt
      \/ validate_number (Some number) min_ max_ can_be_none error
         = Raise (invalid_value error (VNum number))).
Proof.
  unfold validate_number, Py.gt, Py.lt, invalid_value; simpl.
  rewrite andb_false_r.
  pose proof (num_ltb_lt max_ number) as Hmax.
  pose proof (num_ltb_lt number min_) as Hmin.
  destruct (Py.num_ltb max_ number) eqn:Emax; simpl.
  - repeat split.
    + intros [_ Hle]; apply float_le_not_lt in Hle.
      exfalso; apply Hle, Hmax; reflexivity.
    + intros _; right; apply Hmax; reflexivity.
    + intros _; destruct error; reflexivity.
    + right; destruct error; reflexivity.
  - destruct (Py.num_ltb number min_) eqn:Emin; simpl.
    + repeat split.
      * intros [Hle _]; apply float_le_not_lt in Hle.
        exfalso; apply Hle, Hmin; reflexivity.
      * intros _; left; apply Hmin; reflexivity.
      * intros _; destruct error; reflexivity.
      * right; destruct error; reflexivity.
    + repeat split; auto.
      * discriminate.
      * intros [H|H]; [apply Hmin in H | apply Hmax in H]; discriminate.
Qed.

(** [validate_string] takes [len(string)] whatever the flags say, so a
    [None] never gets past the length check. *)
Lemma validate_string_None (re_fullmatch : str -> str -> result bool)
  (min_length max_length : num) (regex : str) (options : option (list str))
  (can_be_none : bool) (error : option exn) :
  validate_string re_fullmatch None min_length max_length regex options
    can_be_none error
  = Raise (TypeError "object of type 'NoneType' has no len()").
Proof. reflexivity. Qed.

Lemma validate_number_None (min_ max_ : num) (can_be_none : bool)
  (error : option exn) :
  validate_number None min_ max_ can_be_none error
  = Raise (TypeError ("'>' not supported between instances of 'NoneType' and '"
                        ++ Py.type_name max_ ++ "'")).
Proof. reflexivity. Qed.

(** C2. With [None] as the value and [can_be_none] false, whatever the
    other constraints and the error object, [validate_string] raises the
    [TypeError] of [len(None)]: it marks the value invalid and goes on to
    the length check instead of raising the invalid-value error. *)
Theorem validate_string_None_disallowed_raises_TypeError
  (re_fullmatch : str -> str -> result bool) (min_length max_length : num)
  (regex : str) (options : option (list str)) (error : option exn) :
  validate_string re_fullmatch None min_length max_length regex options
    false error
  = Raise (TypeError "object of type 'NoneType' has no len()").
Proof. apply validate_string_None. Qed.

(** C10. With [None] as the value and [can_be_none] true, neither
    validator returns: [validate_string] raises the [TypeError] of
    [len(None)] and [validate_number] the [TypeError] of comparing [None]
    with its upper bound. This holds for the default constraints (no
    options, no regex, lengths from 0 to infinity, bounds at the two
    infinities) and for any others. *)
Theorem validators_reject_None_when_nullable
  (re_fullmatch : str -> str -> result bool) (min_length max_length : num)
  (regex : str) (options : option (list str)) (min_ max_ : num)
  (error : option exn) :
  validate_string re_fullmatch None (PInt 0) Py.math_inf [] None true None
  = Raise (TypeError "object of type 'NoneType' has no len()")
  /\ validate_number None Py.neg_math_inf Py.math_inf true None
     = Raise (TypeError "'>' not supported between instances of 'NoneType' and 'float'")
  /\ validate_string re_fullmatch None min_length max_length regex options
       true error
     = Raise (TypeError "object of type 'NoneType' has no len()")
  /\ validate_number None min_ max_ true error
     = Raise (TypeError
                ("'>' not supported between instances of 'NoneType' and '"
                   ++ Py.type_name max_ ++ "'")).
Proof.
  repeat split; first [apply validate_string_None | apply validate_number_None].
Qed.

(** ** Slices and indices at natural-number positions *)

Lemma norm_bound_nat (n i : nat) : Py.norm_bound n (Z.of_nat i) = Nat.min n i.
Proof.
  unfold Py.norm_bound.
  destruct (Z.of_nat i <? 0) eqn:E; [lia|]. now rewrite Nat2Z.id.
Qed.

Lemma slice_nat {A} (l : list A) (i j : nat) :
  Py.slice l (Some (Z.of_nat i)) (Some (Z.of_nat j))
  = firstn (j - i) (skipn i l).
Proof.
  unfold Py.slice; rewrite !norm_bound_nat.
  destruct (Nat.le_gt_cases i (length l)) as [Hi|Hi].
  - rewrite (Nat.min_r _ _ Hi).
    destruct (Nat.le_gt_cases j (length l)) as [Hj|Hj].
    + now rewrite (Nat.min_r _ _ Hj).
    + rewrite Nat.min_l by lia.
      rewrite !firstn_all2; auto; rewrite length_skipn; lia.
  - rewrite (Nat.min_l (length l) i) by lia.
    rewrite !skipn_all2 by lia. now rewrite !firstn_nil.
Qed.

Lemma slice_drop_last_four {A} (l : list A) :
  Py.slice l None (Some (-4)) = firstn (length l - 4) l.
Proof.
  unfold Py.slice, Py.norm_bound; simpl skipn.
  change (-4 <? 0) with true; cbv iota.
  f_equal; lia.
Qed.

Lemma index_nat {A} (l : list A) (i : nat) (x : A) :
  nth_error l i = Some x -> Py.index l (Z.of_nat i) = Ok x.
Proof.
  intros H; unfold Py.index.
  assert (i < length l)%nat by (apply nth_error_Some; congruence).
  destruct (Z.of_nat i <? 0) eqn:E; [lia|].
  replace ((Z.of_nat i <? 0) || (Z.of_nat (length l) <=? Z.of_nat i))
    with false by (symmetry; apply orb_false_iff; split; lia).
  now rewrite Nat2Z.id, H.
Qed.

Lemma skipn_five {A} (l : list A) (i : nat) :
  (i + 5 <= length l)%nat ->
  exists c0 c1 c2 c3 c4 rest, skipn i l = c0 :: c1 :: c2 :: c3 :: c4 :: rest.
Proof.
  intros H; pose proof (length_skipn i l) as L.
  destruct (skipn i l) as [|c0 [|c1 [|c2 [|c3 [|c4 rest]]]]];
    simpl in L; try lia.
  now exists c0, c1, c2, c3, c4, rest.
Qed.

Lemma nth_error_after_skipn {A} (l : list A) (i k : nat) :
  nth_error l (i + k) = nth_error (skipn i l) k.
Proof. symmetry; apply nth_error_skipn. Qed.

(** ** Embedded day and month *)

Lemma numeric_not_separator (c : ascii) :
  Py.char_isnumeric c = true ->
  Ascii.eqb c "/" = false /\ Ascii.eqb c "-" = false.
Proof.
  destruct c as [[] [] [] [] [] [] [] []]; intros H;
    first [discriminate H | split; reflexivity].
Qed.

Lemma date_window_in_range (s : str) (i : nat) :
  date_window s i = true -> (i + 5 <= length s)%nat.
Proof.
  unfold date_window, numeric_at; intros H.
  apply andb_true_iff in H as [_ H].
  destruct (nth_error s (i + 4)) eqn:E; [|discriminate].
  assert (i + 4 < length s)%nat by (apply nth_error_Some; congruence). lia.
Qed.

Lemma window_pair_numeric (s : str) (i : nat) :
  date_window s i = true ->
  Py.isnumeric (fst (window_pair s i)) = true
  /\ Py.isnumeric (snd (window_pair s i)) = true.
Proof.
  intros H; pose proof (date_window_in_range s i H) as R.
  destruct (skipn_five s i R) as (c0 & c1 & c2 & c3 & c4 & rest & E).
  unfold date_window, numeric_at, separator_at in H.
  rewrite <- (Nat.add_0_r i) in H at 1.
  rewrite !nth_error_after_skipn, E in H; simpl in H.
  unfold window_pair.
  replace (skipn (i + 3) s) with (skipn 3 (skipn i s))
    by (rewrite skipn_skipn; f_equal; lia).
  rewrite E; simpl.
  repeat (apply andb_true_iff in H as [H ?]).
  split; apply andb_true_iff; split; auto; now rewrite andb_true_r.
Qed.

(** One turn of the loop at an offset that has five characters after it:
    a date window replaces the pair found so far, anything else leaves
    it. *)
Lemma day_month_step (s : str) (i : nat) (c : ascii) (st : str * str) :
  (i + 5 <= length s)%nat ->
  (let '(i, char) := (Z.of_nat i, c) in
   let '(day, month) := st in
   if Py.isnumeric (Py.slice s (Some i) (Some (i + 2)))
      && Py.isnumeric (Py.slice s (Some (i + 3)) (Some (i + 5)))
   then
     c <- Py.index s (i + 2) ;;
     if Ascii.eqb c "/" then
       Py.unpack2 (Py.split (Py.slice s (Some i) (Some (i + 5))) "/")
     else if Ascii.eqb c "-" then
       Py.unpack2 (Py.split (Py.slice s (Some i) (Some (i + 5))) "-")
     else Ok (day, month)
   else Ok (day, month))
  = Ok (if date_window s i then window_pair s i else st).
Proof.
  intros Hi; destruct st as [day month]; cbv beta iota zeta.
  destruct (skipn_five s i Hi) as (c0 & c1 & c2 & c3 & c4 & rest & E).
  replace (Z.of_nat i + 2) with (Z.of_nat (i + 2)) by lia.
  replace (Z.of_nat i + 3) with (Z.of_nat (i + 3)) by lia.
  replace (Z.of_nat i + 5) with (Z.of_nat (i + 5)) by lia.
  rewrite !slice_nat.
  replace (i + 2 - i)%nat with 2%nat by lia.
  replace (i + 5 - i)%nat with 5%nat by lia.
  replace (i + 5 - (i + 3))%nat with 2%nat by lia.
  assert (E3 : skipn (i + 3) s = c3 :: c4 :: rest).
  { replace (skipn (i + 3) s) with (skipn 3 (skipn i s))
      by (rewrite skipn_skipn; f_equal; lia).
    now rewrite E. }
  assert (N2 : nth_error s (i + 2) = Some c2)
    by (now rewrite nth_error_after_skipn, E).
  rewrite (index_nat s (i + 2) c2 N2).
  assert (N0 : nth_error s i = Some c0)
    by (now rewrite <- (Nat.add_0_r i), nth_error_after_skipn, E).
  assert (N1 : nth_error s (i + 1) = Some c1)
    by (now rewrite nth_error_after_skipn, E).
  assert (N3 : nth_error s (i + 3) = Some c3)
    by (now rewrite nth_error_after_skipn, E).
  assert (N4 : nth_error s (i + 4) = Some c4)
    by (now rewrite nth_error_after_skipn, E).
  unfold date_window, numeric_at, separator_at, window_pair.
  rewrite N0, N1, N2, N3, N4, E, E3; simpl.
  rewrite !andb_true_r.
  destruct (Py.char_isnumeric c0) eqn:H0; simpl; [|reflexivity].
  destruct (Py.char_isnumeric c1) eqn:H1; simpl; [|reflexivity].
  destruct (numeric_not_separator c0 H0) as [S0 D0].
  destruct (numeric_not_separator c1 H1) as [S1 D1].
  destruct (Py.char_isnumeric c3) eqn:H3; simpl;
    [|now rewrite andb_false_r].
  destruct (Py.char_isnumeric c4) eqn:H4; simpl;
    [|now rewrite andb_false_r].
  destruct (numeric_not_separator c3 H3) as [S3 D3].
  destruct (numeric_not_separator c4 H4) as [S4 D4].
  destruct (Ascii.eqb_spec c2 "/") as [->|Hs]; simpl.
  - unfold Py.split; simpl. now rewrite S0, S1, S3, S4.
  - destruct (Ascii.eqb_spec c2 "-") as [->|Hd]; simpl; [|reflexivity].
    unfold Py.split; simpl. now rewrite D0, D1, D3, D4.
Qed.

(** The loop keeps the pair of the last date window it has passed. *)
Lemma last_window_loop (s : str)
  (body : Z * ascii -> str * str -> result (str * str)) :
  (forall i c st,
      (i + 5 <= length s)%nat ->
      body (Z.of_nat i, c) st
      = Ok (if date_window s i then window_pair s i else st)) ->
  forall (l : str) (k : nat) (st : str * str),
    (forall i, (k <= i < k + length l)%nat -> (i + 5 <= length s)%nat) ->
    exists st',
      for_each (Py.enumerate_from (Z.of_nat k) l) st body = Ok st'
      /\ ((forall i, (k <= i < k + length l)%nat -> date_window s i = false)
          /\ st' = st
          \/ exists i,
               (k <= i < k + length l)%nat
               /\ date_window s i = true
               /\ (forall j, (i < j < k + length l)%nat ->
                             date_window s j = false)
               /\ st' = window_pair s i).
Proof.
  intros Hbody; induction l as [|x l IH]; intros k st Hrange.
  - exists st; split; [reflexivity|]. left; split; [|reflexivity].
    simpl; intros i Hi; lia.
  - simpl length in *. cbn [Py.enumerate_from for_each].
    rewrite Hbody by (apply Hrange; lia). cbn [bind].
    replace (Z.of_nat k + 1) with (Z.of_nat (S k)) by lia.
    destruct (IH (S k) (if date_window s k then window_pair s k else st))
      as (st' & E & Hst'); [intros i Hi; apply Hrange; lia|].
    exists st'; split; [exact E|].
    destruct Hst' as [[Hnone ->] | (i & Hi & Hw & Hlast & ->)].
    + destruct (date_window s k) eqn:Hk.
      * right; exists k; repeat split; auto; try lia.
        intros j Hj; apply Hnone; lia.
      * left; split; [|reflexivity].
        intros i Hi. destruct (Nat.eq_dec i k) as [->|]; auto.
        apply Hnone; lia.
    + right; exists i; repeat split; auto; try lia.
      intros j Hj; apply Hlast; lia.
Qed.

(** C1, as the code has it. [get_day_month] either returns a pair or
    raises the error with its message. When it returns, the pair is the one
    of the LAST date window of the string: there is a date window at some
    offset, none at a later offset, and the result is its day and month.
    When it raises, the string has no date window at any offset. *)
Theorem get_day_month_last_window (s : str) :
  match get_day_month s with
  | Ok (day, month) =>
      exists i,
        date_window s i = true
        /\ (forall j, (i < j)%nat -> date_window s j = false)
        /\ (day, month) = window_pair s i
  | Raise e =>
      e = no_date_error /\ forall i, date_window s i = false
  end.
Proof.
  unfold get_day_month.
  match goal with
  | |- context [for_each _ _ ?b] =>
      destruct (last_window_loop s b (day_month_step s)
                  (Py.slice s None (Some (-4))) 0 (@pair str str [] []))
        as (st' & E & Hst')
  end.
  - rewrite slice_drop_last_four, length_firstn. intros i Hi; lia.
  - unfold Py.enumerate. change 0 with (Z.of_nat 0). rewrite E; cbn [bind].
    rewrite slice_drop_last_four, length_firstn in Hst'.
    assert (Hout : forall j, (0 + Nat.min (length s - 4) (length s) <= j)%nat ->
                             date_window s j = false).
    { intros j Hj. destruct (date_window s j) eqn:Hw; [|reflexivity].
      apply date_window_in_range in Hw; lia. }
    destruct Hst' as [[Hnone ->] | (i & Hi & Hw & Hlast & ->)].
    + simpl. split; [reflexivity|].
      intros i. destruct (Nat.lt_ge_cases i (0 + Nat.min (length s - 4) (length s))).
      * apply Hnone; lia.
      * apply Hout; lia.
    + destruct (window_pair_numeric s i Hw) as [Hd Hm].
      destruct (window_pair s i) as [day month] eqn:Ep; simpl in Hd, Hm.
      rewrite Hd, Hm; simpl.
      exists i; repeat split; auto.
      intros j Hj.
      destruct (Nat.lt_ge_cases j (0 + Nat.min (length s - 4) (length s))).
      * apply Hlast; lia.
      * apply Hout; lia.
Qed.

Example get_day_month_stage :
  get_day_month "Stage 4: 12/07 somewhere" = Ok ("12" : str, "07" : str).
Proof. reflexivity. Qed.

(** C1, as the claim has it, fails: in ["12/34 56/78"] the first date
    window is at offset 0 and holds ("12", "34"), and the function returns
    ("56", "78"), the pair of the window at offset 6. *)
Lemma get_day_month_not_first_window :
  date_window "12/34 56/78" 0 = true
  /\ window_pair "12/34 56/78" 0 = ("12" : str, "34" : str)
  /\ get_day_month "12/34 56/78" = Ok ("56" : str, "78" : str)
  /\ get_day_month "12/34 56/78" <> Ok (window_pair "12/34 56/78" 0).
Proof. repeat split; discriminate. Qed.

(** ** Decimal numerals *)

Lemma digit_facts (c : ascii) :
  Py.is_digit c = true ->
  Py.is_space c = false
  /\ Ascii.eqb c "-" = false /\ Ascii.eqb c "+" = false
  /\ Ascii.eqb c "_" = false /\ Ascii.eqb c ":" = false
  /\ Ascii.eqb c " " = false.
Proof.
  destruct c as [[] [] [] [] [] [] [] []]; intros H;
    first [discriminate H | repeat split].
Qed.

Lemma digit_char_spec (d : Z) :
  0 <= d < 10 ->
  Py.is_digit (Py.digit_char d) = true /\ Py.digit_val (Py.digit_char d) = d.
Proof.
  intros H.
  assert (E : d = 0 \/ d = 1 \/ d = 2 \/ d = 3 \/ d = 4 \/ d = 5 \/ d = 6
              \/ d = 7 \/ d = 8 \/ d = 9) by lia.
  repeat (destruct E as [-> | E]; [split; reflexivity|]).
  subst; split; reflexivity.
Qed.

Lemma digits_fuel_all_digits (f : nat) (n : Z) :
  0 <= n -> forallb Py.is_digit (Py.digits_fuel f n) = true.
Proof.
  revert n; induction f as [|f IH]; intros n Hn; simpl; [reflexivity|].
  rewrite forallb_app; apply andb_true_iff; split.
  - destruct (n / 10 =? 0); [reflexivity|].
    apply IH; apply Z.div_pos; lia.
  - simpl; rewrite andb_true_r.
    apply digit_char_spec, Z.mod_pos_bound; lia.
Qed.

Lemma decimal_value_snoc (acc : Z) (s : str) (c : ascii) :
  decimal_value acc (s ++ [c]) = 10 * decimal_value acc s + Py.digit_val c.
Proof. unfold decimal_value; now rewrite fold_left_app. Qed.

Lemma decimal_value_digits_fuel (f : nat) (n : Z) :
  0 <= n < 2 ^ Z.of_nat f ->
  decimal_value 0 (Py.digits_fuel f n) = n.
Proof.
  revert n; induction f as [|f IH]; intros n Hn.
  - simpl in *; lia.
  - cbn [Py.digits_fuel]. rewrite decimal_value_snoc.
    destruct (digit_char_spec (n mod 10)) as [_ ->];
      [apply Z.mod_pos_bound; lia|].
    pose proof (Z.div_mod n 10) as Hdm.
    destruct (n / 10 =? 0) eqn:E.
    + apply Z.eqb_eq in E. cbn [decimal_value fold_left]. lia.
    + rewrite IH; [lia|].
      split; [apply Z.div_pos; lia|].
      apply Z.div_lt_upper_bound; [lia|].
      rewrite Nat2Z.inj_succ, Z.pow_succ_r in Hn by lia. lia.
Qed.

Lemma digits_nonempty (n : Z) : Py.digits n <> [].
Proof.
  unfold Py.digits; cbn [Py.digits_fuel].
  destruct (if n / 10 =? 0 then [] else _); discriminate.
Qed.

Lemma digits_all_digits (n : Z) :
  0 <= n -> forallb Py.is_digit (Py.digits n) = true.
Proof. apply digits_fuel_all_digits. Qed.

Lemma decimal_value_digits (n : Z) :
  0 <= n -> decimal_value 0 (Py.digits n) = n.
Proof.
  intros Hn; apply decimal_value_digits_fuel.
  rewrite Nat2Z.inj_succ, Z2Nat.id by apply Z.log2_nonneg.
  destruct (Z.eq_dec n 0) as [->|Hz]; [simpl; lia|].
  pose proof (Z.log2_spec n); lia.
Qed.

Lemma scan_digits_of_digits (s : str) (acc count : Z) :
  forallb Py.is_digit s = true ->
  Py.scan_digits acc count false s
  = Some (decimal_value acc s, count + Z.of_nat (length s), false, []).
Proof.
  revert acc count; induction s as [|c s IH]; intros acc count Hd.
  - simpl; now rewrite Z.add_0_r.
  - simpl in Hd; apply andb_true_iff in Hd as [Hc Hs].
    cbn [Py.scan_digits]; rewrite Hc, IH by assumption.
    cbn [length]; rewrite Nat2Z.inj_succ.
    replace (count + 1 + Z.of_nat (length s))
      with (count + Z.succ (Z.of_nat (length s))) by lia.
    reflexivity.
Qed.

Lemma lstrip_digits (s : str) :
  forallb Py.is_digit s = true -> Py.lstrip s = s.
Proof.
  destruct s as [|c s]; simpl; [reflexivity|].
  intros H; apply andb_true_iff in H as [Hc _].
  destruct (digit_facts c Hc) as [-> _]; reflexivity.
Qed.

Lemma read_numeral_digits (neg : bool) (s : str) :
  forallb Py.is_digit s = true -> s <> [] -> (length s <= 4300)%nat ->
  Py.read_numeral neg s
  = Ok (if neg then - decimal_value 0 s else decimal_value 0 s).
Proof.
  intros Hd Hne Hlen.
  destruct s as [|c s]; [congruence|].
  pose proof Hd as Hd'; simpl in Hd'; apply andb_true_iff in Hd' as [Hc _].
  assert (Hlim : (Py.int_max_str_digits <? 0 + Z.of_nat (length (c :: s))) = false)
    by (apply Z.ltb_ge; unfold Py.int_max_str_digits; lia).
  assert (Hpos : (0 + Z.of_nat (length (c :: s)) =? 0) = false)
    by (apply Z.eqb_neq; cbn [length]; lia).
  unfold Py.read_numeral.
  destruct c as [[] [] [] [] [] [] [] []]; try discriminate Hc;
    rewrite (scan_digits_of_digits _ 0 0 Hd), Hlim, Hpos; reflexivity.
Qed.

(** [int] reads back an unsigned decimal numeral of at most 4300 digits. *)
Lemma int_of_digits (s : str) :
  forallb Py.is_digit s = true -> s <> [] -> (length s <= 4300)%nat ->
  Py.int s = Ok (decimal_value 0 s).
Proof.
  intros Hd Hne Hlen; unfold Py.int; rewrite (lstrip_digits s Hd).
  rewrite <- (read_numeral_digits false s Hd Hne Hlen).
  destruct s as [|c s]; [congruence|].
  simpl in Hd; apply andb_true_iff in Hd as [Hc _].
  destruct c as [[] [] [] [] [] [] [] []]; try discriminate Hc; reflexivity.
Qed.

(** A numeral that is too long is refused, whatever follows it. *)
Lemma int_of_long_digits (s rest : str) :
  forallb Py.is_digit s = true -> (4300 < length s)%nat ->
  match rest with
  | [] => True
  | c :: _ => Py.is_digit c = false /\ c <> "_"%char
  end ->
  Py.int (s ++ rest) = Raise Py.exceeds_limit.
Proof.
  intros Hd Hlen Hrest.
  assert (Hscan : forall acc count,
             Py.scan_digits acc count false (s ++ rest)
             = Some (decimal_value acc s, count + Z.of_nat (length s), false, rest)).
  { clear Hlen. induction s as [|c s IH]; intros acc count.
    - simpl. rewrite Z.add_0_r. destruct rest as [|c rest]; [reflexivity|].
      destruct Hrest as [Hc Hu]. cbn [Py.scan_digits]. rewrite Hc.
      apply Ascii.eqb_neq in Hu; rewrite Hu. reflexivity.
    - simpl in Hd; apply andb_true_iff in Hd as [Hc Hs].
      cbn [app Py.scan_digits]; rewrite Hc, IH by assumption.
      cbn [length]; rewrite Nat2Z.inj_succ.
      replace (count + 1 + Z.of_nat (length s))
        with (count + Z.succ (Z.of_nat (length s))) by lia.
      reflexivity. }
  assert (Hlim : (Py.int_max_str_digits <? 0 + Z.of_nat (length s)) = true)
    by (apply Z.ltb_lt; unfold Py.int_max_str_digits; lia).
  destruct s as [|c s]; [simpl in Hlen; lia|].
  pose proof Hd as Hd'; simpl in Hd'; apply andb_true_iff in Hd' as [Hc _].
  unfold Py.int. cbn [app Py.lstrip].
  destruct (digit_facts c Hc) as [-> _].
  specialize (Hscan 0 0). cbn [app] in Hscan.
  destruct c as [[] [] [] [] [] [] [] []]; try discriminate Hc;
    cbv beta iota; unfold Py.read_numeral; rewrite Hscan, Hlim; reflexivity.
Qed.

Lemma digits_fuel_length (f : nat) (n : Z) :
  (length (Py.digits_fuel f n) <= f)%nat.
Proof.
  revert n; induction f as [|f IH]; intros n; simpl; [lia|].
  rewrite length_app; simpl.
  destruct (n / 10 =? 0); [simpl; lia|].
  specialize (IH (n / 10)); lia.
Qed.

(** The integers of this module have far fewer digits than [int] reads. *)
Lemma digits_short (n : Z) :
  0 <= n < 2 ^ 64 -> (length (Py.digits n) <= 4300)%nat.
Proof.
  intros Hn. unfold Py.digits.
  pose proof (digits_fuel_length (S (Z.to_nat (Z.log2 n))) n) as L.
  assert (Z.log2 n < 64).
  { destruct (Z.eq_dec n 0) as [->|Hz]; [reflexivity|].
    apply Z.log2_lt_pow2; lia. }
  pose proof (Z.log2_nonneg n). lia.
Qed.

Lemma int_str_of_int (n : Z) :
  0 <= n < 2 ^ 64 -> Py.int (Py.str_of_int n) = Ok n.
Proof.
  intros Hn; unfold Py.str_of_int.
  destruct (n <? 0) eqn:E; [lia|].
  rewrite int_of_digits.
  - rewrite decimal_value_digits; [reflexivity | lia].
  - apply digits_all_digits; lia.
  - apply digits_nonempty.
  - apply digits_short; exact Hn.
Qed.

Lemma digits_lack (c : ascii) (s : str) :
  Py.is_digit c = false -> forallb Py.is_digit s = true -> has_char c s = false.
Proof.
  intros Hc; induction s as [|d s IH]; simpl; [reflexivity|].
  intros H; apply andb_true_iff in H as [Hd Hs].
  rewrite (IH Hs), orb_false_r.
  apply Ascii.eqb_neq; intros ->; congruence.
Qed.

Lemma str_of_int_lacks (c : ascii) (n : Z) :
  0 <= n -> Py.is_digit c = false -> has_char c (Py.str_of_int n) = false.
Proof.
  intros Hn Hc; unfold Py.str_of_int.
  destruct (n <? 0) eqn:E; [lia|].
  apply digits_lack; auto using digits_all_digits.
Qed.

(** ** Durations *)

Lemma below_100 (P : Z -> bool) :
  forallb P (map Z.of_nat (seq 0 100)) = true ->
  forall m, 0 <= m < 100 -> P m = true.
Proof.
  intros H m Hm; rewrite forallb_forall in H; apply H.
  apply in_map_iff; exists (Z.to_nat m); split; [lia|].
  apply in_seq; lia.
Qed.

Lemma format_two_digits (m : Z) :
  0 <= m < 100 -> Py.format_0d 2 m = two_digits m.
Proof.
  intros Hm; apply str_eqb_eq.
  apply (below_100 (fun m => Py.str_eqb (Py.format_0d 2 m) (two_digits m)));
    [vm_compute; reflexivity | exact Hm].
Qed.

Lemma two_digits_all_digits (m : Z) :
  0 <= m < 100 -> forallb Py.is_digit (two_digits m) = true.
Proof.
  apply (below_100 (fun m => forallb Py.is_digit (two_digits m))).
  vm_compute; reflexivity.
Qed.

Lemma int_two_digits (m : Z) : 0 <= m < 100 -> Py.int (two_digits m) = Ok m.
Proof.
  intros Hm. rewrite int_of_digits;
    [| apply two_digits_all_digits; exact Hm | discriminate
     | unfold two_digits; simpl; lia].
  f_equal. apply Z.eqb_eq.
  apply (below_100 (fun m => decimal_value 0 (two_digits m) =? m));
    [vm_compute; reflexivity | exact Hm].
Qed.

Lemma two_digits_lack (c : ascii) (m : Z) :
  0 <= m < 100 -> Py.is_digit c = false -> has_char c (two_digits m) = false.
Proof. intros Hm Hc; apply digits_lack; auto using two_digits_all_digits. Qed.

Lemma hms_text_lacks_space (h m s : Z) :
  0 <= h -> 0 <= m < 100 -> 0 <= s < 100 ->
  has_char " " (hms_text h m s) = false.
Proof.
  intros Hh Hm Hs; unfold hms_text.
  repeat (apply has_char_false_app; split);
    auto using str_of_int_lacks, two_digits_lack.
Qed.

Lemma split_hms_text (h m s : Z) :
  0 <= h -> 0 <= m < 100 -> 0 <= s < 100 ->
  Py.split (hms_text h m s) ":"
  = [Py.str_of_int h; two_digits m; two_digits s].
Proof.
  intros Hh Hm Hs; unfold hms_text.
  change (Py.str_of_int h ++ ":" ++ two_digits m ++ ":" ++ two_digits s)
    with (Py.str_of_int h ++ ":"%char :: two_digits m ++ ":"%char :: two_digits s).
  rewrite !split_sep, split_no_sep;
    auto using str_of_int_lacks, two_digits_lack.
Qed.

Lemma time_to_timedelta_hms_text (h m s : Z) :
  0 <= h < 2 ^ 64 -> 0 <= m < 100 -> 0 <= s < 100 ->
  time_to_timedelta (hms_text h m s) = Py.timedelta_hms h m s.
Proof.
  intros Hh Hm Hs; unfold time_to_timedelta.
  rewrite split_hms_text by (assumption || apply Hh).
  cbn [Py.map_result].
  rewrite int_str_of_int, !int_two_digits by assumption.
  reflexivity.
Qed.

(** Hours, minutes and seconds inside a day, and the days, of a duration
    given in hours, minutes and seconds. *)
Lemma hms_arithmetic (h m s : Z) :
  0 <= h -> 0 <= m < 60 -> 0 <= s < 60 ->
  let total := h * 3600 + m * 60 + s in
  total / 86400 = h / 24
  /\ total mod 86400 / 60 / 60 = h mod 24
  /\ (total mod 86400 / 60) mod 60 = m
  /\ (total mod 86400) mod 60 = s.
Proof.
  intros Hh Hm Hs total; subst total.
  repeat split; Z.div_mod_to_equations; lia.
Qed.

Lemma timedelta_hms_value (h m s : Z) :
  0 <= h -> 0 <= m < 60 -> 0 <= s < 60 ->
  Py.timedelta_hms h m s
  = if h / 24 <=? Py.max_days
    then Ok (Py.mk_timedelta (h / 24) ((h * 3600 + m * 60 + s) mod 86400) 0)
    else Raise (OverflowError "timedelta # of days is too large").
Proof.
  intros Hh Hm Hs; unfold Py.timedelta_hms, Py.td_normalise.
  change (0 / 1000000) with 0; change (0 mod 1000000) with 0.
  rewrite Z.add_0_r, Z.add_0_l.
  destruct (hms_arithmetic h m s Hh Hm Hs) as (-> & _).
  rewrite Z.abs_eq by (apply Z.div_pos; lia). reflexivity.
Qed.

Lemma td_str_hms (d h m s : Z) :
  0 <= h -> 0 <= m < 60 -> 0 <= s < 60 ->
  Py.td_str (Py.mk_timedelta d ((h * 3600 + m * 60 + s) mod 86400) 0)
  = if d =? 0 then hms_text (h mod 24) m s
    else Py.str_of_int d ++ " day" ++ (if Z.abs d =? 1 then "" else "s")
           ++ ", " ++ hms_text (h mod 24) m s.
Proof.
  intros Hh Hm Hs; unfold Py.td_str.
  cbn [Py.td_seconds Py.td_days Py.td_microseconds].
  destruct (hms_arithmetic h m s Hh Hm Hs) as (_ & -> & -> & ->).
  rewrite !format_two_digits by lia.
  change (0 =? 0) with true; cbv iota.
  reflexivity.
Qed.

(** Rendering the duration of [h] hours, [m] minutes and [s] seconds, kept
    as [h / 24] days and the rest, gives back the text with all the hours:
    the days are folded back at 24 hours each. *)
Lemma timedelta_to_time_hms (h m s : Z) :
  0 <= h < 2 ^ 64 -> 0 <= m < 60 -> 0 <= s < 60 ->
  timedelta_to_time
    (Py.mk_timedelta (h / 24) ((h * 3600 + m * 60 + s) mod 86400) 0)
  = Ok (hms_text h m s).
Proof.
  intros [Hh Hbound] Hm Hs; unfold timedelta_to_time.
  rewrite td_str_hms by assumption.
  assert (Hr : 0 <= h mod 24 < 24) by (apply Z.mod_pos_bound; lia).
  assert (Hd : 0 <= h / 24) by (apply Z.div_pos; lia).
  pose proof (hms_text_lacks_space (h mod 24) m s) as Hsp.
  destruct (h / 24 =? 0) eqn:E.
  - apply Z.eqb_eq in E.
    assert (Hh' : h mod 24 = h) by (pose proof (Z.div_mod h 24); lia).
    rewrite Hh' in *.
    rewrite split_no_sep by (apply Hsp; lia).
    change (1 <? Py.len [hms_text h m s]) with false; cbv iota.
    change (Py.index [hms_text h m s] 0) with (Ok (hms_text h m s)).
    cbn [bind]. rewrite split_hms_text by lia.
    reflexivity.
  - set (base := hms_text (h mod 24) m s) in *.
    assert (Hsplit :
              Py.split (Py.str_of_int (h / 24) ++ " day"
                          ++ (if Z.abs (h / 24) =? 1 then "" else "s")
                          ++ ", " ++ base) " "
              = [Py.str_of_int (h / 24);
                 if Z.abs (h / 24) =? 1
                 then list_ascii_of_string "day,"
                 else list_ascii_of_string "days,";
                 base]).
    { destruct (Z.abs (h / 24) =? 1).
      - change (Py.str_of_int (h / 24) ++ " day" ++ "" ++ ", " ++ base)
          with (Py.str_of_int (h / 24)
                  ++ " "%char :: list_ascii_of_string "day," ++ " "%char :: base).
        rewrite split_sep by (apply str_of_int_lacks; auto).
        rewrite split_sep by reflexivity.
        rewrite split_no_sep by (apply Hsp; lia). reflexivity.
      - change (Py.str_of_int (h / 24) ++ " day" ++ "s" ++ ", " ++ base)
          with (Py.str_of_int (h / 24)
                  ++ " "%char :: list_ascii_of_string "days," ++ " "%char :: base).
        rewrite split_sep by (apply str_of_int_lacks; auto).
        rewrite split_sep by reflexivity.
        rewrite split_no_sep by (apply Hsp; lia). reflexivity. }
    rewrite Hsplit.
    match goal with
    | |- context [Py.len [?a; ?b; ?c]] =>
        change (1 <? Py.len [a; b; c]) with true; cbv iota;
        change (Py.index [a; b; c] 0) with (Ok a);
        change (Py.index [a; b; c] 2) with (Ok c)
    end.
    cbn [bind]. subst base. rewrite split_hms_text by lia.
    match goal with
    | |- context [Py.index [?a; ?b; ?c] 0] =>
        change (Py.index [a; b; c] 0) with (Ok a);
        change (Py.slice [a; b; c] (Some 1) None) with [b; c]
    end.
    cbn [bind].
    rewrite !int_str_of_int
      by (split; [lia | Z.div_mod_to_equations; lia]).
    cbn [bind].
    replace (h mod 24 + 24 * (h / 24)) with h
      by (pose proof (Z.div_mod h 24); lia).
    reflexivity.
Qed.

(** *** Well-formed texts are the texts of hours, minutes and seconds *)

Lemma split_from_nonempty (cur t : str) (sep : ascii) :
  Py.split_from cur t sep <> [].
Proof.
  revert cur; induction t as [|c t IH]; intros cur; simpl; [discriminate|].
  destruct (Ascii.eqb c sep); [discriminate | apply IH].
Qed.

Lemma join_split_from (t cur : str) (sep : ascii) :
  Py.join [sep] (Py.split_from cur t sep) = rev cur ++ t.
Proof.
  revert cur; induction t as [|c t IH]; intros cur; simpl.
  - now rewrite app_nil_r.
  - destruct (Ascii.eqb_spec c sep) as [->|Hc].
    + specialize (IH []).
      destruct (Py.split_from [] t sep) as [|p l] eqn:E;
        [now apply split_from_nonempty in E|].
      change (Py.join [sep] (rev cur :: p :: l))
        with (rev cur ++ [sep] ++ Py.join [sep] (p :: l)).
      now rewrite IH.
    + rewrite IH; simpl. now rewrite <- app_assoc.
Qed.

Lemma join_split (t : str) (sep : ascii) :
  Py.join [sep] (Py.split t sep) = t.
Proof. apply join_split_from. Qed.

Lemma digit_val_spec (c : ascii) :
  Py.is_digit c = true ->
  Py.digit_char (Py.digit_val c) = c /\ 0 <= Py.digit_val c < 10.
Proof.
  destruct c as [[] [] [] [] [] [] [] []]; intros H;
    first [discriminate H | split; [reflexivity | vm_compute; split; congruence]].
Qed.

Lemma digits_fuel_enough (f1 f2 : nat) (n : Z) :
  0 < n -> n < 2 ^ Z.of_nat f1 -> n < 2 ^ Z.of_nat f2 ->
  Py.digits_fuel f1 n = Py.digits_fuel f2 n.
Proof.
  revert f2 n; induction f1 as [|f1 IH]; intros f2 n Hn H1 H2.
  - simpl in H1; lia.
  - destruct f2 as [|f2]; [simpl in H2; lia|].
    cbn [Py.digits_fuel]. f_equal.
    destruct (n / 10 =? 0) eqn:E; [reflexivity|].
    apply Z.eqb_neq in E.
    assert (0 <= n / 10) by (apply Z.div_pos; lia).
    rewrite Nat2Z.inj_succ, Z.pow_succ_r in H1, H2 by lia.
    apply IH; [lia | |]; apply Z.div_lt_upper_bound; lia.
Qed.

Lemma digits_small (d : Z) : 0 <= d < 10 -> Py.digits d = [Py.digit_char d].
Proof.
  intros H; unfold Py.digits; cbn [Py.digits_fuel].
  rewrite Z.div_small, Z.mod_small by lia. reflexivity.
Qed.

Lemma digits_snoc (n d : Z) :
  0 < n -> 0 <= d < 10 ->
  Py.digits (10 * n + d) = Py.digits n ++ [Py.digit_char d].
Proof.
  intros Hn Hd; unfold Py.digits at 1; cbn [Py.digits_fuel].
  assert (Hq : (10 * n + d) / 10 = n) by (Z.div_mod_to_equations; lia).
  assert (Hr : (10 * n + d) mod 10 = d) by (Z.div_mod_to_equations; lia).
  rewrite Hq, Hr.
  destruct (n =? 0) eqn:E; [lia|]. f_equal.
  apply digits_fuel_enough; [lia | |].
  - rewrite Z2Nat.id by apply Z.log2_nonneg.
    pose proof (Z.log2_spec (10 * n + d)) as L.
    replace (Z.succ (Z.log2 (10 * n + d))) with (Z.log2 (10 * n + d) + 1)
      in L by lia.
    rewrite Z.pow_add_r in L by (try apply Z.log2_nonneg; lia). lia.
  - rewrite Nat2Z.inj_succ, Z2Nat.id by apply Z.log2_nonneg.
    pose proof (Z.log2_spec n); lia.
Qed.

(** A numeral that does not start with a zero is the text of its value. *)
Lemma digits_of_value (s : str) :
  forallb Py.is_digit s = true ->
  (exists c rest, s = c :: rest /\ c <> "0"%char) ->
  0 < decimal_value 0 s /\ Py.digits (decimal_value 0 s) = s.
Proof.
  induction s as [|c s IH] using rev_ind; intros Hd (c0 & rest & E & Hc0).
  - discriminate.
  - rewrite forallb_app in Hd; apply andb_true_iff in Hd as [Hs Hc].
    simpl in Hc; rewrite andb_true_r in Hc.
    destruct (digit_val_spec c Hc) as [Hcv Hrange].
    rewrite decimal_value_snoc.
    destruct s as [|c1 s].
    + simpl in E; injection E as <- <-.
      cbn [decimal_value fold_left].
      assert (Py.digit_val c <> 0).
      { intros Hz; rewrite Hz in Hcv; apply Hc0; rewrite <- Hcv; reflexivity. }
      split; [lia|].
      rewrite Z.mul_0_r, Z.add_0_l, digits_small by lia. now rewrite Hcv.
    + simpl in E; injection E as <- _.
      destruct (IH Hs) as [Hpos Hdig]; [now exists c1, s|].
      split; [lia|].
      rewrite digits_snoc by lia. now rewrite Hdig, Hcv.
Qed.

Lemma canonical_numeral_text (s : str) :
  canonical_numeral s = true ->
  0 <= decimal_value 0 s /\ Py.str_of_int (decimal_value 0 s) = s.
Proof.
  unfold canonical_numeral; intros H; apply andb_true_iff in H as [Hd Hc].
  assert (Hgoal : 0 <= decimal_value 0 s /\ Py.digits (decimal_value 0 s) = s).
  { destruct s as [|c [|c' s]]; [discriminate | |].
    - simpl in Hd; rewrite andb_true_r in Hd.
      destruct (digit_val_spec c Hd) as [Hcv Hrange].
      cbn [decimal_value fold_left]. rewrite Z.mul_0_r, Z.add_0_l.
      split; [lia|]. rewrite digits_small by lia. now rewrite Hcv.
    - apply negb_true_iff, Ascii.eqb_neq in Hc.
      destruct (digits_of_value (c :: c' :: s) Hd) as [Hpos Hdig];
        [now exists c, (c' :: s)|].
      split; [lia | exact Hdig]. }
  destruct Hgoal as [Hpos Hdig]; split; [exact Hpos|].
  unfold Py.str_of_int. destruct (decimal_value 0 s <? 0) eqn:E; [lia|].
  exact Hdig.
Qed.

Lemma sexagesimal_text (s : str) :
  sexagesimal s = true ->
  0 <= decimal_value 0 s < 60 /\ two_digits (decimal_value 0 s) = s.
Proof.
  unfold sexagesimal; intros H.
  apply andb_true_iff in H as [H Hv]; apply andb_true_iff in H as [Hl Hd].
  destruct s as [|a [|b [|c s]]]; try discriminate Hl.
  simpl in Hd; rewrite andb_true_r in Hd; apply andb_true_iff in Hd as [Ha Hb].
  destruct (digit_val_spec a Ha) as [Hav Har].
  destruct (digit_val_spec b Hb) as [Hbv Hbr].
  cbn [decimal_value fold_left] in *. rewrite Z.mul_0_r, Z.add_0_l in *.
  split; [lia|]. unfold two_digits.
  replace ((10 * Py.digit_val a + Py.digit_val b) / 10) with (Py.digit_val a)
    by (Z.div_mod_to_equations; lia).
  replace ((10 * Py.digit_val a + Py.digit_val b) mod 10) with (Py.digit_val b)
    by (Z.div_mod_to_equations; lia).
  now rewrite Hav, Hbv.
Qed.

(** A well-formed text is the text of its hours, minutes and seconds. *)
Lemma well_formed_hms_text (t : str) :
  well_formed_hms t = true ->
  exists h m s,
    0 <= h /\ 0 <= m < 60 /\ 0 <= s < 60
    /\ t = hms_text h m s /\ hours_of t = h.
Proof.
  unfold well_formed_hms, hours_of; intros H.
  pose proof (join_split t ":") as J.
  destruct (Py.split t ":") as [|hs [|ms [|ss [|x l]]]]; try discriminate H.
  apply andb_true_iff in H as [H Hss]; apply andb_true_iff in H as [Hhs Hms].
  destruct (canonical_numeral_text hs Hhs) as [Hh Eh].
  destruct (sexagesimal_text ms Hms) as [Hm Em].
  destruct (sexagesimal_text ss Hss) as [Hs Es].
  exists (decimal_value 0 hs), (decimal_value 0 ms), (decimal_value 0 ss).
  repeat split; try lia.
  unfold hms_text; rewrite Eh, Em, Es. symmetry; exact J.
Qed.

Lemma digits_fuel_head (f : nat) (n : Z) :
  0 < n -> n < 2 ^ Z.of_nat f ->
  exists c rest, Py.digits_fuel f n = c :: rest /\ c <> "0"%char.
Proof.
  revert n; induction f as [|f IH]; intros n Hn Hf; [simpl in Hf; lia|].
  cbn [Py.digits_fuel].
  destruct (n / 10 =? 0) eqn:E.
  - apply Z.eqb_eq in E.
    assert (Hsmall : 1 <= n mod 10 < 10) by (Z.div_mod_to_equations; lia).
    exists (Py.digit_char (n mod 10)), []; split; [reflexivity|].
    intros Hz. destruct (digit_char_spec (n mod 10)) as [_ Hv]; [lia|].
    rewrite Hz in Hv; change (Py.digit_val "0") with 0 in Hv; lia.
  - apply Z.eqb_neq in E.
    assert (0 <= n / 10) by (apply Z.div_pos; lia).
    rewrite Nat2Z.inj_succ, Z.pow_succ_r in Hf by lia.
    destruct (IH (n / 10)) as (c & rest & -> & Hc);
      [lia | apply Z.div_lt_upper_bound; lia |].
    exists c, (rest ++ [Py.digit_char (n mod 10)]); split; [reflexivity | exact Hc].
Qed.

Lemma str_of_int_canonical (h : Z) :
  0 <= h -> canonical_numeral (Py.str_of_int h) = true.
Proof.
  intros Hh; unfold canonical_numeral, Py.str_of_int.
  destruct (h <? 0) eqn:E; [lia|].
  rewrite digits_all_digits by assumption; simpl.
  destruct (Z.eq_dec h 0) as [->|Hz]; [reflexivity|].
  destruct (digits_fuel_head (S (Z.to_nat (Z.log2 h))) h) as (c & rest & Ed & Hc).
  - lia.
  - rewrite Nat2Z.inj_succ, Z2Nat.id by apply Z.log2_nonneg.
    pose proof (Z.log2_spec h); lia.
  - unfold Py.digits; rewrite Ed.
    destruct rest; [reflexivity|].
    now apply negb_true_iff, Ascii.eqb_neq.
Qed.

(** Conversely the text of hours, minutes and seconds is well formed. *)
Lemma hms_text_well_formed (h m s : Z) :
  0 <= h -> 0 <= m < 60 -> 0 <= s < 60 ->
  well_formed_hms (hms_text h m s) = true.
Proof.
  intros Hh Hm Hs; unfold well_formed_hms.
  rewrite split_hms_text by lia.
  rewrite str_of_int_canonical by assumption.
  assert (Hsx : forall k, 0 <= k < 60 -> sexagesimal (two_digits k) = true).
  { intros k Hk.
    pose proof (below_100
                  (fun k => negb (k <? 60) || sexagesimal (two_digits k))
                  ltac:(vm_compute; reflexivity) k ltac:(lia)) as Hb.
    cbv beta in Hb. destruct (k <? 60) eqn:E; [exact Hb | lia]. }
  now rewrite !Hsx.
Qed.

(** The round trip in terms of hours, minutes and seconds. *)
Lemma time_round_trip_hms (h m s : Z) :
  0 <= h < 24000000000 -> 0 <= m < 60 -> 0 <= s < 60 ->
  (tdelta <- time_to_timedelta (hms_text h m s) ;; timedelta_to_time tdelta)
  = Ok (hms_text h m s).
Proof.
  intros Hh Hm Hs.
  assert (Hb : 0 <= h < 2 ^ 64) by lia.
  rewrite time_to_timedelta_hms_text, timedelta_hms_value by lia.
  unfold Py.max_days.
  replace (h / 24 <=? 999999999) with true
    by (symmetry; apply Z.leb_le; Z.div_mod_to_equations; lia).
  cbn [bind]. apply timedelta_to_time_hms; assumption.
Qed.

(** C4, as the code has it. For every well-formed text ["H:MM:SS"] (the
    hours a decimal numeral, the minutes and the seconds two digits each in
    00-59) whose duration fits a [timedelta], that is with hours below
    24 000 000 000 (a thousand million days), parsing the text and
    rendering the duration gives the same text back, days folded into
    hours. *)
Theorem time_round_trip (t : str) :
  well_formed_hms t = true ->
  hours_of t < 24000000000 ->
  (tdelta <- time_to_timedelta t ;; timedelta_to_time tdelta) = Ok t.
Proof.
  intros H Hlt.
  destruct (well_formed_hms_text t H) as (h & m & s & Hh & Hm & Hs & Et & Eh).
  rewrite Eh in Hlt. rewrite Et. apply time_round_trip_hms; [lia | assumption..].
Qed.

Lemma time_round_trip_witness :
  well_formed_hms "25:01:07" = true
  /\ hours_of "25:01:07" < 24000000000
  /\ (tdelta <- time_to_timedelta "25:01:07" ;; timedelta_to_time tdelta)
     = Ok ("25:01:07" : str).
Proof.
  split; [reflexivity|]. split; [reflexivity|].
  exact (time_round_trip "25:01:07" eq_refl eq_refl).
Defined.

(** Hours written with a leading zero come back without it. *)
Example time_round_trip_leading_zero :
  (tdelta <- time_to_timedelta "05:00:00" ;; timedelta_to_time tdelta)
  = Ok ("5:00:00" : str).
Proof. reflexivity. Qed.

(** C4, as the claim has it, fails for hours that do not fit a
    [timedelta]: ["24000000000:00:00"] is well formed and its parse
    raises. *)
Lemma time_round_trip_overflow :
  well_formed_hms "24000000000:00:00" = true
  /\ (tdelta <- time_to_timedelta "24000000000:00:00" ;;
      timedelta_to_time tdelta)
     = Raise (OverflowError "timedelta # of days is too large")
  /\ (tdelta <- time_to_timedelta "24000000000:00:00" ;;
      timedelta_to_time tdelta)
     <> Ok ("24000000000:00:00" : str).
Proof.
  split; [vm_compute; reflexivity|].
  split; [vm_compute; reflexivity|].
  intros H; vm_compute in H; discriminate H.
Qed.

(** Hours of more than 4300 digits are not read at all: [int] refuses the
    numeral, so the parse raises [ValueError] and not [OverflowError]. *)
Lemma time_to_timedelta_long_hours (hs : str) :
  forallb Py.is_digit hs = true -> (4300 < length hs)%nat ->
  time_to_timedelta (hs ++ ":00:00") = Raise Py.exceeds_limit.
Proof.
  intros Hd Hlen; unfold time_to_timedelta.
  change (hs ++ ":00:00") with (hs ++ ":"%char :: list_ascii_of_string "00:00").
  rewrite split_sep by (apply digits_lack; [reflexivity | exact Hd]).
  cbn [Py.map_result].
  rewrite <- (app_nil_r hs) at 1.
  rewrite (int_of_long_digits hs [] Hd Hlen I). reflexivity.
Qed.

(** ** Regular expressions: matching by derivatives is matching *)

Module ReFacts.
Import Re.

Lemma nullable_spec (r : re) : nullable r = true <-> Matches r [].
Proof.
  split.
  - induction r; simpl; intros H; try discriminate.
    + constructor.
    + apply andb_true_iff in H as [H1 H2].
      change (@nil ascii) with (@nil ascii ++ []); constructor; auto.
    + apply orb_true_iff in H as [H|H]; [apply MAltL | apply MAltR]; auto.
    + constructor.
  - intros H; remember (@nil ascii) as s eqn:E.
    induction H; simpl; try discriminate; auto.
    + apply app_eq_nil in E as [-> ->]; rewrite IHMatches1, IHMatches2; auto.
    + rewrite IHMatches; auto.
    + rewrite IHMatches; auto using orb_true_r.
Qed.

Lemma deriv_sound (r : re) (c : ascii) :
  forall s, Matches (deriv c r) s -> Matches r (c :: s).
Proof.
  induction r; simpl; intros s H.
  - inversion H.
  - inversion H.
  - destruct (Ascii.eqb_spec c c0) as [->|]; inversion H; subst; constructor.
  - destruct (cls_mem neg ranges c) eqn:E; inversion H; subst.
    now constructor.
  - destruct (nullable r1) eqn:N.
    + inversion H as [| | | | ? ? ? H1 | ? ? ? H2 | |]; subst.
      * inversion H1; subst.
        change (c :: s1 ++ s2) with ((c :: s1) ++ s2); constructor; auto.
      * change (c :: s) with ([] ++ c :: s); constructor; auto.
        now apply nullable_spec.
    + inversion H; subst.
      change (c :: s1 ++ s2) with ((c :: s1) ++ s2); constructor; auto.
  - inversion H; subst; [apply MAltL | apply MAltR]; auto.
  - inversion H; subst.
    change (c :: s1 ++ s2) with ((c :: s1) ++ s2); constructor; auto.
Qed.

Lemma deriv_complete (r : re) (s0 : str) :
  Matches r s0 -> forall c t, s0 = c :: t -> Matches (deriv c r) t.
Proof.
  induction 1 as [| d | neg ranges d Hd | r1 r2 s1 s2 H1 IH1 H2 IH2
                 | r1 r2 s H IH | r1 r2 s H IH | r
                 | r s1 s2 H1 IH1 H2 IH2];
    intros c t E; simpl.
  - discriminate.
  - injection E as -> <-. rewrite Ascii.eqb_refl; constructor.
  - injection E as -> <-. rewrite Hd; constructor.
  - destruct s1 as [|c1 s1]; simpl in E.
    + apply nullable_spec in H1; rewrite H1. apply MAltR; auto.
    + injection E as -> <-.
      destruct (nullable r1); [apply MAltL|]; constructor; auto.
  - apply MAltL; auto.
  - apply MAltR; auto.
  - discriminate.
  - destruct s1 as [|c1 s1]; simpl in E.
    + apply IH2; assumption.
    + injection E as -> <-. constructor; auto.
Qed.

Lemma accepts_spec (s : str) :
  forall r, accepts r s = true <-> Matches r s.
Proof.
  induction s as [|c s IH]; intros r; simpl.
  - apply nullable_spec.
  - rewrite IH; split; [apply deriv_sound|].
    intros H; exact (deriv_complete r (c :: s) H c s eq_refl).
Qed.

Lemma fullmatch_spec (pattern s : str) (r : re) :
  compile pattern = Some r ->
  (fragment_matches pattern s <-> Matches r s).
Proof.
  intros E; unfold fragment_matches, fullmatch; rewrite E.
  rewrite <- accepts_spec. split; [congruence | intros ->; reflexivity].
Qed.

(** What the repetition of one character matches. *)
Lemma star_chr (c : ascii) (s : str) :
  Matches (Star (Chr c)) s <-> exists n, s = repeat c n.
Proof.
  split.
  - intros H; remember (Star (Chr c)) as r eqn:E.
    induction H; try discriminate.
    + exists 0%nat; reflexivity.
    + injection E as ->.
      destruct (IHMatches2 eq_refl) as (n & ->).
      inversion H; subst. exists (S n); reflexivity.
  - intros (n & ->); induction n as [|n IH]; simpl; [constructor|].
    change (c :: repeat c n) with ([c] ++ repeat c n); constructor; auto.
    constructor.
Qed.

Lemma plus_chr_then (c : ascii) (body : re) (s : str) :
  Matches (Cat (plus (Chr c)) body) s
  <-> exists n t, (1 <= n)%nat /\ s = repeat c n ++ t /\ Matches body t.
Proof.
  unfold plus; split.
  - intros H; inversion H as [| | | ? ? s1 t H1 Hb | | | |]; subst.
    inversion H1 as [| | | ? ? a b Ha Hs | | | |]; subst.
    inversion Ha; subst. apply star_chr in Hs as (n & ->).
    exists (S n), t; repeat split; auto; lia.
  - intros (n & t & Hn & -> & Hb).
    destruct n as [|n]; [lia|]. constructor; auto.
    change (repeat c (S n)) with ([c] ++ repeat c n).
    constructor; [constructor | apply star_chr; eauto].
Qed.

End ReFacts.

(** ** URL fragments *)

Lemma leading_slashes_shape (pattern : str) (body : Re.re) :
  Re.compile pattern = Some (Re.Cat (Re.plus (Re.Chr "/")) body) ->
  forall s,
    fragment_matches pattern s
    <-> exists n t, (1 <= n)%nat /\ s = slashes n ++ t /\ Re.Matches body t.
Proof.
  intros E s. rewrite (ReFacts.fullmatch_spec pattern s _ E).
  apply ReFacts.plus_chr_then.
Qed.

Ltac invert_match :=
  repeat match goal with
    | H : Re.Matches (Re.Cat _ _) _ |- _ => inversion H; subst; clear H
    | H : Re.Matches (Re.Chr _) _ |- _ => inversion H; subst; clear H
    | H : Re.Matches (Re.Cls _ _) _ |- _ => inversion H; subst; clear H
    end.

Lemma team_url_str_shape (s : str) :
  fragment_matches reg.team_url_str s ->
  exists c t, s = "/"%char :: c :: t /\ c <> "/"%char.
Proof.
  intros H.
  pose proof (ReFacts.fullmatch_spec reg.team_url_str s) as F.
  remember (Re.compile reg.team_url_str) as o eqn:E.
  vm_compute in E; subst o. apply (F _ eq_refl) in H; clear F.
  invert_match.
  simpl. eexists; eexists; split; [reflexivity|].
  intros ->. discriminate.
Qed.

Lemma matches_cons_chr (c : ascii) (r : Re.re) (s : str) :
  Re.Matches r s -> Re.Matches (Re.Cat (Re.Chr c) r) (c :: s).
Proof.
  intros H. change (c :: s) with ([c] ++ s).
  constructor; [constructor | exact H].
Qed.

Lemma matches_cons_dot (c : ascii) (r : Re.re) (s : str) :
  c <> "010"%char ->
  Re.Matches r s -> Re.Matches (Re.Cat Re.dot_cls r) (c :: s).
Proof.
  intros Hc H. change (c :: s) with ([c] ++ s).
  constructor; [constructor | exact H].
  destruct c as [[] [] [] [] [] [] [] []]; first [reflexivity | congruence].
Qed.

(** The language of [base_url]: the address, its two dots standing for any
    character but a newline, and one or more slashes after it. *)
Lemma base_url_language (s : str) :
  fragment_matches reg.base_url s
  <-> exists c d n,
        (1 <= n)%nat /\ c <> "010"%char /\ d <> "010"%char
        /\ s = "https://www" ++ c :: "procyclingstats" ++ d :: "com"
                ++ slashes n.
Proof.
  pose proof (ReFacts.fullmatch_spec reg.base_url s) as F.
  remember (Re.compile reg.base_url) as o eqn:E.
  vm_compute in E; subst o. rewrite (F _ eq_refl); clear F.
  split.
  - intros H. invert_match.
    match goal with
    | Hs : Re.Matches (Re.Star _) ?t,
      Hc : Re.cls_mem _ _ ?c = true, Hd : Re.cls_mem _ _ ?d = true |- _ =>
        apply ReFacts.star_chr in Hs as (n & ->);
        exists d, c, (S n);
        split; [lia|];
        split; [intros ->; discriminate Hd|];
        split; [intros ->; discriminate Hc|]
    end.
    reflexivity.
  - intros (c & d & n & Hn & Hc & Hd & ->).
    destruct n as [|n]; [lia|]. simpl.
    repeat first [ apply matches_cons_chr
                 | apply matches_cons_dot; [assumption|] ].
    apply ReFacts.star_chr; eauto.
Qed.

(** C9, as the code has it. Seven fragments of the table, [url_str],
    [year], [stage], [result], [overview], [startlist] and [anything], are
    one or more slashes followed by a segment shape: they match exactly the
    strings made of any positive number of slashes and then a string of
    that shape. [team_url_str] takes exactly one slash: what it matches
    starts with a slash and goes on with another character. So every
    fragment but [base_url] matches only strings that begin with a slash.
    [base_url] matches exactly the strings made of ["https://www"], a
    character that is not a newline, ["procyclingstats"], a character that
    is not a newline, ["com"] and one or more slashes: they begin with
    ["https://"], and the slashes come last. *)
Theorem reg_leading_separators :
  (forall name pattern,
      In (name, pattern) reg.table ->
      name <> "base_url" -> name <> "team_url_str" ->
      exists body,
        forall s,
          fragment_matches pattern s
          <-> exists n t,
                (1 <= n)%nat /\ s = slashes n ++ t /\ Re.Matches body t)
  /\ (forall s,
         fragment_matches reg.team_url_str s ->
         exists c t, s = "/"%char :: c :: t /\ c <> "/"%char)
  /\ (forall name pattern,
         In (name, pattern) reg.table ->
         name <> "base_url" ->
         forall s, fragment_matches pattern s -> exists t, s = "/"%char :: t)
  /\ (forall s,
         fragment_matches reg.base_url s
         <-> exists c d n,
               (1 <= n)%nat /\ c <> "010"%char /\ d <> "010"%char
               /\ s = "https://www" ++ c :: "procyclingstats" ++ d :: "com"
                       ++ slashes n).
Proof.
  assert (Hseven :
            forall name pattern,
              In (name, pattern) reg.table ->
              name <> "base_url" -> name <> "team_url_str" ->
              exists body,
                forall s,
                  fragment_matches pattern s
                  <-> exists n t,
                        (1 <= n)%nat /\ s = slashes n ++ t
                        /\ Re.Matches body t).
  { intros name pattern Hin Hb Ht. simpl in Hin.
    repeat (destruct Hin as [Hin|Hin];
            [ injection Hin as <- <-;
              first [ exfalso; apply Hb; reflexivity
                    | exfalso; apply Ht; reflexivity
                    | eexists; apply leading_slashes_shape; reflexivity ]
            | ]).
    contradiction. }
  split; [exact Hseven|].
  split; [exact team_url_str_shape|].
  split; [|exact base_url_language].
  intros name pattern Hin Hb s Hm.
  destruct (list_eq_dec ascii_dec name "team_url_str") as [->|Ht].
  - simpl in Hin.
    repeat (destruct Hin as [Hin|Hin]; [try discriminate Hin|]);
      try contradiction.
    injection Hin as <-.
    destruct (team_url_str_shape s Hm) as (c & t & -> & _); eauto.
  - destruct (Hseven name pattern Hin Hb Ht) as (body & Hbody).
    apply Hbody in Hm as (n & t & Hn & -> & _).
    destruct n as [|n]; [lia|]. simpl; eauto.
Qed.

(** C9, as the claim has it, fails at [base_url]: it matches
    ["https://www.procyclingstats.com/"], which does not begin with a
    slash. And [team_url_str] does not take a second leading slash. *)
Lemma base_url_no_leading_slash :
  fragment_matches reg.base_url "https://www.procyclingstats.com/"
  /\ hd_error (list_ascii_of_string "https://www.procyclingstats.com/")
     <> Some "/"%char
  /\ Re.fullmatch reg.team_url_str "/bora-hansgrohe-2022" = Ok true
  /\ Re.fullmatch reg.team_url_str "//bora-hansgrohe-2022" = Ok false.
Proof.
  split; [reflexivity|]. split; [discriminate|]. split; reflexivity.
Qed.

(** * Further properties *)

(** ** [format_time] *)

Lemma pad_component_not_single (v : str) :
  (Py.len (pad_component v) =? 1) = false.
Proof.
  unfold pad_component.
  destruct (Py.len v =? 1) eqn:E; [|exact E].
  apply Z.eqb_eq in E; apply Z.eqb_neq.
  unfold Py.len in *; rewrite length_app; simpl; lia.
Qed.

Lemma pad_component_lacks_colon (v : str) :
  has_char ":" v = false -> has_char ":" (pad_component v) = false.
Proof.
  intros H; unfold pad_component.
  destruct (Py.len v =? 1); [|exact H].
  apply has_char_false_app; split; [reflexivity | exact H].
Qed.

(** X1. [format_time] never raises: the loop writes at positions 0 and 1
    at most, and only as many as the list has components, so no assignment
    falls outside the list. *)
Theorem format_time_never_raises (time : str) :
  exists t, format_time time = Ok t.
Proof. apply format_time_total. Qed.

(** X2. A time of two components, minutes and seconds, comes back with
    ["0:"] in front and each component of a single character padded with a
    zero; components of any other length are kept as they are. *)
Theorem format_time_minutes_seconds (m s : str) :
  has_char ":" m = false -> has_char ":" s = false ->
  format_time (m ++ ":" ++ s)
  = Ok ("0:" ++ (if Py.len m =? 1 then "0" ++ m else m)
          ++ ":" ++ (if Py.len s =? 1 then "0" ++ s else s)).
Proof. apply format_time_two_components. Qed.

Lemma format_time_minutes_seconds_witness :
  has_char ":" "7" = false /\ has_char ":" "45" = false
  /\ format_time "7:45" = Ok ("0:07:45" : str).
Proof.
  split; [reflexivity|]. split; [reflexivity|].
  exact (format_time_minutes_seconds "7" "45" eq_refl eq_refl).
Defined.

(** X3. A time of three components whose minutes and seconds are not
    single characters is returned unchanged, whatever the hours. *)
Theorem format_time_keeps_full_times (h m s : str) :
  has_char ":" h = false -> has_char ":" m = false -> has_char ":" s = false ->
  Py.len m <> 1 -> Py.len s <> 1 ->
  format_time (h ++ ":" ++ m ++ ":" ++ s) = Ok (h ++ ":" ++ m ++ ":" ++ s).
Proof.
  intros Hh Hm Hs Lm Ls.
  rewrite format_time_three_components by assumption.
  apply Z.eqb_neq in Lm, Ls. rewrite Lm, Ls. reflexivity.
Qed.

Lemma format_time_keeps_full_times_witness :
  has_char ":" "45" = false /\ has_char ":" "12" = false
  /\ has_char ":" "30" = false
  /\ Py.len (list_ascii_of_string "12") <> 1
  /\ Py.len (list_ascii_of_string "30") <> 1
  /\ format_time "45:12:30" = Ok ("45:12:30" : str).
Proof.
  do 3 (split; [reflexivity|]). do 2 (split; [discriminate|]).
  exact (format_time_keeps_full_times "45" "12" "30" eq_refl eq_refl eq_refl
           ltac:(discriminate) ltac:(discriminate)).
Defined.

Lemma has_char_rev (c : ascii) (s : str) : has_char c (rev s) = has_char c s.
Proof.
  unfold has_char; apply eq_true_iff_eq.
  rewrite !existsb_exists; split; intros (x & Hin & Hx); exists x; split;
    auto; [apply in_rev | apply in_rev in Hin]; auto.
Qed.

Lemma split_from_parts_lack (t cur : str) (sep : ascii) :
  has_char sep cur = false ->
  Forall (fun p => has_char sep p = false) (Py.split_from cur t sep).
Proof.
  revert cur; induction t as [|c t IH]; intros cur Hcur; simpl.
  - constructor; [now rewrite has_char_rev | constructor].
  - destruct (Ascii.eqb c sep) eqn:E.
    + constructor; [now rewrite has_char_rev | apply IH; reflexivity].
    + apply IH; simpl. now rewrite Ascii.eqb_sym, E.
Qed.

Lemma split_parts_lack (t : str) (sep : ascii) :
  Forall (fun p => has_char sep p = false) (Py.split t sep).
Proof. apply split_from_parts_lack; reflexivity. Qed.

Lemma split_join (l : list str) (sep : ascii) :
  l <> [] -> Forall (fun p => has_char sep p = false) l ->
  Py.split (Py.join [sep] l) sep = l.
Proof.
  induction l as [|p [|q l] IH]; intros Hne Hl; [congruence | |].
  - inversion Hl; subst. now apply split_no_sep.
  - inversion Hl as [|? ? Hp Hrest]; subst.
    change (Py.join [sep] (p :: q :: l))
      with (p ++ sep :: Py.join [sep] (q :: l)).
    rewrite split_sep by exact Hp. f_equal.
    apply IH; [discriminate | exact Hrest].
Qed.

Lemma slice_last_two_cons {A} (x : A) (l : list A) :
  (2 <= length l)%nat ->
  Py.slice (x :: l) (Some (-2)) None = Py.slice l (Some (-2)) None.
Proof.
  intros H; unfold Py.slice, Py.norm_bound.
  change (-2 <? 0) with true; cbv iota.
  replace (Z.to_nat (Z.max 0 (Z.of_nat (length (x :: l)) + -2)))
    with (S (length l - 2)) by (simpl length; lia).
  replace (Z.to_nat (Z.max 0 (Z.of_nat (length l) + -2)))
    with (length l - 2)%nat by lia.
  simpl length. simpl skipn. f_equal; lia.
Qed.

Lemma slice_last_two_length {A} (l : list A) :
  length (Py.slice l (Some (-2)) None) = Nat.min 2 (length l).
Proof.
  unfold Py.slice, Py.norm_bound.
  change (-2 <? 0) with true; cbv iota.
  rewrite length_firstn, length_skipn. lia.
Qed.

(** The loop of [format_time] computes [format_parts]. *)
Lemma format_time_parts (time : str) :
  format_time time
  = Ok (if Py.len (format_parts (Py.split time ":")) =? 2
        then "0:" ++ Py.join ":" (format_parts (Py.split time ":"))
        else Py.join ":" (format_parts (Py.split time ":"))).
Proof.
  unfold format_time, format_parts.
  pose proof (slice_last_two_length (Py.split time ":")) as L.
  destruct (Py.slice (Py.split time ":") (Some (-2)) None)
    as [|x [|y [|z vals]]]; simpl length in L.
  - reflexivity.
  - destruct (Py.split time ":") as [|c0 rest]; [simpl in L; lia|].
    cbn [Py.enumerate Py.enumerate_from for_each].
    destruct (Py.len x =? 1); [|reflexivity].
    rewrite set_item_in_range by (unfold Py.len; simpl length; lia).
    reflexivity.
  - destruct (Py.split time ":") as [|c0 [|c1 rest]]; try (simpl in L; lia).
    cbn [Py.enumerate Py.enumerate_from for_each].
    destruct (Py.len x =? 1).
    + rewrite set_item_in_range by (unfold Py.len; simpl length; lia).
      cbn [bind Z.to_nat Py.replace_nth]. change (0 + 1) with 1.
      destruct (Py.len y =? 1); [|reflexivity].
      rewrite set_item_in_range by (unfold Py.len; simpl length; lia).
      reflexivity.
    + cbn [bind]. change (0 + 1) with 1.
      destruct (Py.len y =? 1); [|reflexivity].
      rewrite set_item_in_range by (unfold Py.len; simpl length; lia).
      reflexivity.
  - lia.
Qed.

Lemma In_firstn {A} (n : nat) (l : list A) (x : A) :
  In x (firstn n l) -> In x l.
Proof.
  revert l; induction n as [|n IH]; intros l H; [destruct l; contradiction|].
  destruct l as [|y l]; simpl in H; [contradiction|].
  destruct H as [H|H]; [now left | right; auto].
Qed.

Lemma In_skipn {A} (n : nat) (l : list A) (x : A) :
  In x (skipn n l) -> In x l.
Proof.
  revert l; induction n as [|n IH]; intros [|y l]; simpl; auto.
Qed.

Lemma slice_subset {A} (l : list A) lo hi (x : A) :
  In x (Py.slice l lo hi) -> In x l.
Proof.
  unfold Py.slice; intros H.
  apply In_firstn in H. eapply In_skipn; eassumption.
Qed.

Lemma format_parts_length (time : list str) :
  length (format_parts time) = length time.
Proof.
  unfold format_parts.
  destruct (Py.slice time (Some (-2)) None) as [|x [|y [|z vals]]];
    destruct time as [|c0 [|c1 rest]]; reflexivity.
Qed.

Lemma format_parts_lack (time : list str) :
  Forall (fun p => has_char ":" p = false) time ->
  Forall (fun p => has_char ":" p = false) (format_parts time).
Proof.
  intros H; unfold format_parts.
  assert (Hs : forall x, In x (Py.slice time (Some (-2)) None) ->
                         has_char ":" ("0" ++ x) = false).
  { intros x Hx; apply slice_subset in Hx.
    rewrite Forall_forall in H. apply has_char_false_app; split; auto. }
  destruct (Py.slice time (Some (-2)) None) as [|x [|y [|z vals]]]; auto.
  - destruct time as [|c0 rest]; auto.
    inversion H; subst; constructor; auto.
    destruct (Py.len x =? 1); auto. apply Hs; now left.
  - destruct time as [|c0 [|c1 rest]]; auto.
    inversion H as [|? ? H0 H1]; subst. inversion H1; subst.
    constructor; [|constructor]; auto.
    + destruct (Py.len x =? 1); auto. apply Hs; now left.
    + destruct (Py.len y =? 1); auto. apply Hs; right; now left.
Qed.

(** Applying the loop to its own result changes nothing, for any number of
    components but two, where ["0:"] is put in front in between. *)
Lemma format_parts_idempotent (time : list str) :
  length time <> 2%nat ->
  format_parts (format_parts time) = format_parts time.
Proof.
  intros Hlen.
  destruct time as [|c0 [|c1 [|c2 [|c3 rest]]]]; try (simpl in Hlen; lia).
  - reflexivity.
  - change (format_parts [c0]) with [pad_component c0].
    change (format_parts [pad_component c0])
      with [if Py.len (pad_component c0) =? 1
            then "0" ++ pad_component c0 else pad_component c0].
    now rewrite pad_component_not_single.
  - change (format_parts [c0; c1; c2])
      with [if Py.len c1 =? 1 then "0" ++ c1 else c0;
            if Py.len c2 =? 1 then "0" ++ c2 else c1; c2].
    set (A := if Py.len c1 =? 1 then "0" ++ c1 else c0).
    set (B := if Py.len c2 =? 1 then "0" ++ c2 else c1).
    change (format_parts [A; B; c2])
      with [if Py.len B =? 1 then "0" ++ B else A;
            if Py.len c2 =? 1 then "0" ++ c2 else B; c2].
    subst A B.
    destruct (Py.len c2 =? 1) eqn:E2.
    + assert (Hz : (Py.len ("0" ++ c2) =? 1) = false).
      { apply Z.eqb_eq in E2; apply Z.eqb_neq.
        unfold Py.len in *; rewrite length_app; simpl; lia. }
      rewrite Hz; reflexivity.
    + destruct (Py.len c1 =? 1) eqn:E1; reflexivity.
  - pose proof (slice_last_two_length (c2 :: c3 :: rest)) as L.
    assert (Hs : forall a b : str,
               Py.slice (a :: b :: c2 :: c3 :: rest) (Some (-2)) None
               = Py.slice (c2 :: c3 :: rest) (Some (-2)) None).
    { intros a b; rewrite !slice_last_two_cons by (simpl; lia). reflexivity. }
    destruct (Py.slice (c2 :: c3 :: rest) (Some (-2)) None)
      as [|x [|y [|z vals]]] eqn:Ev; simpl length in L; try lia.
    assert (E1 : format_parts (c0 :: c1 :: c2 :: c3 :: rest)
                 = (if Py.len x =? 1 then "0" ++ x else c0)
                     :: (if Py.len y =? 1 then "0" ++ y else c1)
                     :: c2 :: c3 :: rest)
      by (unfold format_parts; rewrite Hs; reflexivity).
    rewrite E1. unfold format_parts; rewrite Hs.
    destruct (Py.len x =? 1); destruct (Py.len y =? 1); reflexivity.
Qed.

(** X4. [format_time] is idempotent: normalising a time that is already
    the result of [format_time] gives it back, for every input. *)
Theorem format_time_idempotent (time t : str) :
  format_time time = Ok t -> format_time t = Ok t.
Proof.
  rewrite format_time_parts; intros H; injection H as <-.
  pose proof (split_parts_lack time ":") as Hl.
  pose proof (format_parts_length (Py.split time ":")) as Hlen.
  apply format_parts_lack in Hl.
  destruct (Py.len (format_parts (Py.split time ":")) =? 2) eqn:E.
  - apply Z.eqb_eq in E; unfold Py.len in E. rewrite Hlen in E.
    destruct (Py.split time ":") as [|m [|s [|x l]]] eqn:Es;
      simpl length in E; try lia.
    change (format_parts [m; s]) with [pad_component m; pad_component s] in *.
    match goal with
    | |- format_time ?r = Ok ?r =>
        change r
          with (Py.join [":"%char]
                  [list_ascii_of_string "0"; pad_component m; pad_component s])
    end.
    rewrite format_time_parts, split_join;
      [| discriminate | constructor; [reflexivity | exact Hl]].
    change (format_parts [list_ascii_of_string "0";
                          pad_component m; pad_component s])
      with [if Py.len (pad_component m) =? 1
            then "0" ++ pad_component m else list_ascii_of_string "0";
            if Py.len (pad_component s) =? 1
            then "0" ++ pad_component s else pad_component m;
            pad_component s].
    rewrite !pad_component_not_single. reflexivity.
  - assert (Hne : format_parts (Py.split time ":") <> []).
    { intros Hnil; rewrite Hnil in Hlen; simpl in Hlen.
      pose proof (split_from_nonempty [] time ":") as Hs.
      unfold Py.split in Hlen. destruct (Py.split_from [] time ":");
        [congruence | discriminate]. }
    rewrite format_time_parts.
    change (Py.join ":" (format_parts (Py.split time ":")))
      with (Py.join [":"%char] (format_parts (Py.split time ":"))).
    rewrite split_join by assumption.
    rewrite format_parts_idempotent, E; [reflexivity|].
    apply Z.eqb_neq in E; unfold Py.len in E. lia.
Qed.

Lemma format_time_idempotent_witness :
  format_time "1:2:3" = Ok ("02:03:3" : str)
  /\ format_time "02:03:3" = Ok ("02:03:3" : str).
Proof.
  split; [reflexivity|].
  exact (format_time_idempotent "1:2:3" "02:03:3" eq_refl).
Defined.

(** ** [time_to_timedelta] *)

Lemma int_raises_ValueError (s : str) (e : exn) :
  Py.int s = Raise e -> exists msg, e = ValueError msg.
Proof.
  assert (Hread : forall neg body,
             Py.read_numeral neg body = Raise e -> exists msg, e = ValueError msg).
  { intros neg body; unfold Py.read_numeral.
    destruct (Py.scan_digits 0 0 false body) as [[[[n count] prev] rest]|].
    - destruct prev, (Py.int_max_str_digits <? count), (count =? 0),
        (forallb Py.is_space rest);
        destruct body as [|[[] [] [] [] [] [] [] []] tl];
        intros H;
        first [discriminate H | injection H as <-; eexists; reflexivity].
    - destruct body as [|[[] [] [] [] [] [] [] []] tl];
        intros H; injection H as <-; eexists; reflexivity. }
  unfold Py.int.
  destruct (Py.lstrip s) as [|[[] [] [] [] [] [] [] []] tl]; apply Hread.
Qed.

Lemma map_int_raises_ValueError (l : list str) (e : exn) :
  Py.map_result Py.int l = Raise e -> exists msg, e = ValueError msg.
Proof.
  induction l as [|x l IH]; simpl; [discriminate|].
  destruct (Py.int x) as [v|e'] eqn:E; simpl.
  - destruct (Py.map_result Py.int l); simpl; [discriminate|].
    intros H; injection H as <-; apply IH; reflexivity.
  - intros H; injection H as <-; eapply int_raises_ValueError; eassumption.
Qed.

Lemma map_int_length (l : list str) (vals : list Z) :
  Py.map_result Py.int l = Ok vals -> length vals = length l.
Proof.
  revert vals; induction l as [|x l IH]; intros vals; simpl.
  - intros H; injection H as <-; reflexivity.
  - destruct (Py.int x); simpl; [|discriminate].
    destruct (Py.map_result Py.int l) as [ys|]; simpl; [|discriminate].
    intros H; injection H as <-; simpl; f_equal; auto.
Qed.

Lemma td_normalise_spec (d s us : Z) (t : Py.timedelta) :
  Py.td_normalise d s us = Ok t ->
  86400 * Py.td_days t + Py.td_seconds t = 86400 * d + s + us / 1000000
  /\ 0 <= Py.td_seconds t < 86400
  /\ Py.td_microseconds t = us mod 1000000
  /\ Z.abs (Py.td_days t) <= Py.max_days.
Proof.
  unfold Py.td_normalise.
  destruct (Z.abs (d + (s + us / 1000000) / 86400) <=? Py.max_days) eqn:E;
    [|discriminate].
  intros H; injection H as <-; cbn [Py.td_days Py.td_seconds Py.td_microseconds].
  apply Z.leb_le in E.
  pose proof (Z.div_mod (s + us / 1000000) 86400).
  pose proof (Z.mod_pos_bound (s + us / 1000000) 86400).
  repeat split; try lia.
Qed.

Lemma map_int_three (a b c : str) (h m s : Z) :
  Py.int a = Ok h -> Py.int b = Ok m -> Py.int c = Ok s ->
  Py.map_result Py.int [a; b; c] = Ok [h; m; s].
Proof. intros Ha Hb Hc; simpl; rewrite Ha, Hb, Hc; reflexivity. Qed.

(** X5. What [time_to_timedelta] does on every text. It returns exactly
    for three components between colons that [int] reads and whose duration
    fits a [timedelta]; the duration is then the normalised
    [hours * 3600 + minutes * 60 + seconds] seconds, with no microseconds.
    It raises [OverflowError] exactly for three readable components whose
    duration is more than 999 999 999 days away from zero, and [ValueError]
    exactly for the texts that are not three readable components. *)
Theorem time_to_timedelta_spec (time : str) :
  match time_to_timedelta time with
  | Ok tdelta =>
      exists hours minutes seconds,
        three_numerals time hours minutes seconds
        /\ total_seconds tdelta = hours * 3600 + minutes * 60 + seconds
        /\ 0 <= Py.td_seconds tdelta < 86400
        /\ Py.td_microseconds tdelta = 0
        /\ Z.abs (Py.td_days tdelta) <= Py.max_days
  | Raise e =>
      ((exists msg, e = ValueError msg)
       /\ forall hours minutes seconds,
            ~ three_numerals time hours minutes seconds)
      \/ ((exists msg, e = OverflowError msg)
          /\ exists hours minutes seconds,
               three_numerals time hours minutes seconds
               /\ Py.max_days
                  < Z.abs ((hours * 3600 + minutes * 60 + seconds) / 86400))
  end.
Proof.
  unfold time_to_timedelta.
  destruct (Py.map_result Py.int (Py.split time ":")) as [vals|e] eqn:E;
    cbn [bind].
  2: { left; split; [eapply map_int_raises_ValueError; eassumption|].
       intros h m s (a & b & c & Hsp & Ha & Hb & Hc).
       rewrite Hsp, (map_int_three a b c h m s Ha Hb Hc) in E. discriminate E. }
  pose proof (map_int_length _ _ E) as L.
  assert (Hshort :
            length vals <> 3%nat ->
            forall h m s, ~ three_numerals time h m s).
  { intros Hlen h m s (a & b & c & Hsp & _).
    rewrite Hsp in L; simpl in L. congruence. }
  destruct vals as [|h [|m [|s [|x vals]]]]; cbn [Py.unpack3 bind];
    try (left; split; [eauto | apply Hshort; discriminate]; fail).
  clear Hshort.
  destruct (Py.split time ":") as [|a [|b [|c [|y l]]]] eqn:Hsp;
    try discriminate L.
  simpl in E.
  destruct (Py.int a) as [h'|] eqn:Ea; simpl in E; [|discriminate].
  destruct (Py.int b) as [m'|] eqn:Eb; simpl in E; [|discriminate].
  destruct (Py.int c) as [s'|] eqn:Ec; simpl in E; [|discriminate].
  injection E as <- <- <-.
  assert (Hread : three_numerals time h' m' s').
  { exists a, b, c. rewrite Hsp. auto. }
  unfold Py.timedelta_hms.
  destruct (Py.td_normalise 0 (h' * 3600 + m' * 60 + s') 0) as [t|e] eqn:En.
  - apply td_normalise_spec in En as (Ht & Hs & Hu & Hd).
    exists h', m', s'. unfold total_seconds.
    change (0 / 1000000) with 0 in Ht; change (0 mod 1000000) with 0 in Hu.
    repeat split; auto; lia.
  - right. unfold Py.td_normalise in En.
    change (0 / 1000000) with 0 in En.
    rewrite Z.add_0_r, Z.add_0_l in En.
    destruct (Z.abs _ <=? Py.max_days) eqn:Eb'; [discriminate|].
    injection En as <-. split; [eauto|].
    exists h', m', s'. split; [exact Hread|].
    apply Z.leb_gt in Eb'. exact Eb'.
Qed.

(** X6. The order of the operands of [add_time] does not matter for the
    result: when the sum of two times is returned, the sum in the other
    order is the same. *)
Theorem add_time_commutes (time1 time2 t : str) :
  add_time time1 time2 = Ok t -> add_time time2 time1 = Ok t.
Proof.
  unfold add_time; intros H.
  destruct (format_time time1) as [a|]; cbn [bind] in *; [|discriminate].
  destruct (time_to_timedelta a) as [d1|]; cbn [bind] in *; [|discriminate].
  destruct (format_time time2) as [b|]; cbn [bind] in *; [|discriminate].
  destruct (time_to_timedelta b) as [d2|]; cbn [bind] in *; [|discriminate].
  unfold Py.td_add in *.
  rewrite (Z.add_comm (Py.td_days d2)), (Z.add_comm (Py.td_seconds d2)),
    (Z.add_comm (Py.td_microseconds d2)).
  exact H.
Qed.

Lemma add_time_commutes_witness :
  add_time "1:30" "0:45" = Ok ("0:02:15" : str)
  /\ add_time "0:45" "1:30" = Ok ("0:02:15" : str).
Proof.
  split; [reflexivity|].
  exact (add_time_commutes "1:30" "0:45" "0:02:15" eq_refl).
Defined.

(** ** [timedelta_to_time] *)

Lemma digits_head_digit (n : Z) :
  0 <= n -> exists c rest, Py.digits n = c :: rest /\ Py.is_digit c = true.
Proof.
  intros Hn. pose proof (digits_all_digits n Hn) as Hd.
  pose proof (digits_nonempty n) as Hne.
  destruct (Py.digits n) as [|c rest]; [congruence|].
  simpl in Hd; apply andb_true_iff in Hd as [Hc _]. eauto.
Qed.

Lemma lstrip_non_space (c : ascii) (s : str) :
  Py.is_space c = false -> Py.lstrip (c :: s) = c :: s.
Proof. intros H; simpl; now rewrite H. Qed.

(** [int] reads back the text of an integer, negative ones too. *)
Lemma int_str_of_any_int (n : Z) :
  Z.abs n < 2 ^ 64 -> Py.int (Py.str_of_int n) = Ok n.
Proof.
  intros Hb.
  destruct (Z.lt_ge_cases n 0) as [Hneg|Hpos]; [|apply int_str_of_int; lia].
  unfold Py.str_of_int. destruct (n <? 0) eqn:E; [|lia].
  unfold Py.int. rewrite lstrip_non_space by reflexivity.
  rewrite read_numeral_digits.
  - rewrite decimal_value_digits by lia. f_equal; lia.
  - apply digits_all_digits; lia.
  - apply digits_nonempty.
  - apply digits_short; lia.
Qed.

Lemma str_of_any_int_lacks (c : ascii) (n : Z) :
  Py.is_digit c = false -> c <> "-"%char ->
  has_char c (Py.str_of_int n) = false.
Proof.
  intros Hc Hm; unfold Py.str_of_int. destruct (n <? 0) eqn:E.
  - simpl. apply orb_false_iff; split.
    + now apply Ascii.eqb_neq.
    + apply digits_lack; [exact Hc | apply digits_all_digits; lia].
  - apply digits_lack; [exact Hc | apply digits_all_digits; lia].
Qed.

Lemma format_0d_all_digits (w : nat) (n : Z) :
  0 <= n -> forallb Py.is_digit (Py.format_0d w n) = true.
Proof.
  intros Hn; unfold Py.format_0d, Py.zfill.
  destruct (n <? 0) eqn:E; [lia|].
  rewrite forallb_app, digits_all_digits by assumption.
  rewrite andb_true_r. apply forallb_forall.
  intros x Hx; apply repeat_spec in Hx; subst; reflexivity.
Qed.

Lemma fraction_text_lacks (c : ascii) (us : Z) :
  0 <= us -> Py.is_digit c = false -> c <> "."%char ->
  has_char c (fraction_text us) = false.
Proof.
  intros Hus Hc Hdot; unfold fraction_text.
  destruct (us =? 0); [reflexivity|].
  apply has_char_false_app; split.
  - simpl. rewrite orb_false_r. now apply Ascii.eqb_neq.
  - apply digits_lack; [exact Hc | now apply format_0d_all_digits].
Qed.

(** The text of a normalised duration: an optional count of days, then the
    clock inside the day. *)
Lemma td_str_shape (t : Py.timedelta) :
  0 <= Py.td_seconds t < 86400 ->
  Py.td_str t
  = (if Py.td_days t =? 0 then []
     else Py.str_of_int (Py.td_days t) ++ " day"
            ++ (if Z.abs (Py.td_days t) =? 1 then "" else "s") ++ ", ")
      ++ Py.str_of_int (Py.td_seconds t / 3600) ++ ":"
      ++ two_digits (Py.td_seconds t / 60 mod 60) ++ ":"
      ++ two_digits (Py.td_seconds t mod 60)
      ++ fraction_text (Py.td_microseconds t).
Proof.
  intros Hs; unfold Py.td_str, fraction_text.
  rewrite Z.div_div by lia. change (60 * 60) with 3600.
  rewrite !format_two_digits
    by (pose proof (Z.mod_pos_bound (Py.td_seconds t / 60) 60);
        pose proof (Z.mod_pos_bound (Py.td_seconds t) 60); lia).
  destruct (Py.td_days t =? 0); destruct (Py.td_microseconds t =? 0);
    rewrite <- ?app_assoc, ?app_nil_r; reflexivity.
Qed.

Lemma clock_lacks_space (hh mm ss us : Z) :
  0 <= mm < 100 -> 0 <= ss < 100 -> 0 <= us ->
  has_char " " (Py.str_of_int hh ++ ":" ++ two_digits mm ++ ":"
                  ++ two_digits ss ++ fraction_text us) = false.
Proof.
  intros Hm Hs Hu.
  repeat (apply has_char_false_app; split);
    auto using two_digits_lack;
    try reflexivity;
    [ apply str_of_any_int_lacks; [reflexivity | discriminate]
    | apply fraction_text_lacks; [assumption | reflexivity | discriminate] ].
Qed.

Lemma split_clock (hh mm ss us : Z) :
  0 <= mm < 100 -> 0 <= ss < 100 -> 0 <= us ->
  Py.split (Py.str_of_int hh ++ ":" ++ two_digits mm ++ ":"
              ++ two_digits ss ++ fraction_text us) ":"
  = [Py.str_of_int hh; two_digits mm; two_digits ss ++ fraction_text us].
Proof.
  intros Hm Hs Hu.
  change (Py.str_of_int hh ++ ":" ++ two_digits mm ++ ":"
            ++ two_digits ss ++ fraction_text us)
    with (Py.str_of_int hh ++ ":"%char
            :: two_digits mm ++ ":"%char
            :: two_digits ss ++ fraction_text us).
  rewrite split_sep
    by (apply str_of_any_int_lacks; [reflexivity | discriminate]).
  rewrite split_sep by (apply two_digits_lack; [assumption | reflexivity]).
  rewrite split_no_sep; [reflexivity|].
  apply has_char_false_app; split;
    [ apply two_digits_lack; [assumption | reflexivity]
    | apply fraction_text_lacks; [assumption | reflexivity | discriminate] ].
Qed.

(** X7. On every normalised duration (seconds within a day, microseconds
    within a second, any number of days a [timedelta] holds, negative ones
    too) [timedelta_to_time] returns, and the text is the hours with the
    days folded in at 24 hours each, the minutes and the seconds on two
    digits, and the fraction [str] gives when the microseconds are not zero.
    For a negative duration the hours are negative and the minutes and
    seconds still count upwards. *)
Theorem timedelta_to_time_spec (tdelta : Py.timedelta) :
  Z.abs (Py.td_days tdelta) <= Py.max_days ->
  0 <= Py.td_seconds tdelta < 86400 ->
  0 <= Py.td_microseconds tdelta < 1000000 ->
  timedelta_to_time tdelta
  = Ok (Py.str_of_int (24 * Py.td_days tdelta + Py.td_seconds tdelta / 3600)
          ++ ":" ++ two_digits (Py.td_seconds tdelta / 60 mod 60)
          ++ ":" ++ two_digits (Py.td_seconds tdelta mod 60)
          ++ fraction_text (Py.td_microseconds tdelta)).
Proof.
  intros Hdays Hs Hu; unfold timedelta_to_time.
  rewrite td_str_shape by assumption.
  assert (Hhh : Z.abs (Py.td_seconds tdelta / 3600) < 2 ^ 64)
    by (assert (0 <= Py.td_seconds tdelta / 3600 < 24)
         by (Z.div_mod_to_equations; lia); lia).
  assert (Hdd : Z.abs (Py.td_days tdelta) < 2 ^ 64)
    by (unfold Py.max_days in Hdays; lia).
  set (hh := Py.td_seconds tdelta / 3600) in *.
  set (mm := Py.td_seconds tdelta / 60 mod 60).
  set (ss := Py.td_seconds tdelta mod 60).
  set (us := Py.td_microseconds tdelta) in *.
  set (d := Py.td_days tdelta) in *.
  assert (Hmm : 0 <= mm < 100)
    by (subst mm; pose proof (Z.mod_pos_bound (Py.td_seconds tdelta / 60) 60); lia).
  assert (Hss : 0 <= ss < 100)
    by (subst ss; pose proof (Z.mod_pos_bound (Py.td_seconds tdelta) 60); lia).
  assert (Hus : 0 <= us) by lia.
  pose proof (clock_lacks_space hh mm ss us Hmm Hss Hus) as Hsp.
  pose proof (split_clock hh mm ss us Hmm Hss Hus) as Hcl.
  set (clock := Py.str_of_int hh ++ ":" ++ two_digits mm ++ ":"
                  ++ two_digits ss ++ fraction_text us) in *.
  destruct (d =? 0) eqn:E.
  - apply Z.eqb_eq in E. rewrite E.
    change ([] ++ clock) with clock.
    rewrite split_no_sep by exact Hsp.
    change (1 <? Py.len [clock]) with false; cbv iota.
    change (Py.index [clock] 0) with (Ok clock).
    cbn [bind]. rewrite Hcl.
    replace (24 * 0 + hh) with hh by lia. reflexivity.
  - assert (Hsplit :
              Py.split ((Py.str_of_int d ++ " day"
                           ++ (if Z.abs d =? 1 then "" else "s") ++ ", ")
                          ++ clock) " "
              = [Py.str_of_int d;
                 if Z.abs d =? 1
                 then list_ascii_of_string "day,"
                 else list_ascii_of_string "days,";
                 clock]).
    { assert (Hd : has_char " " (Py.str_of_int d) = false)
        by (apply str_of_any_int_lacks; [reflexivity | discriminate]).
      destruct (Z.abs d =? 1).
      - change ((Py.str_of_int d ++ " day" ++ "" ++ ", ") ++ clock)
          with ((Py.str_of_int d
                   ++ " "%char :: list_ascii_of_string "day," ++ [" "%char])
                  ++ clock).
        rewrite <- !app_assoc. simpl app.
        change (Py.str_of_int d
                  ++ " "%char :: "d"%char :: "a"%char :: "y"%char :: ","%char
                  :: " "%char :: clock)
          with (Py.str_of_int d
                  ++ " "%char :: list_ascii_of_string "day," ++ " "%char :: clock).
        rewrite split_sep by exact Hd.
        rewrite split_sep by reflexivity.
        rewrite split_no_sep by exact Hsp. reflexivity.
      - change ((Py.str_of_int d ++ " day" ++ "s" ++ ", ") ++ clock)
          with ((Py.str_of_int d
                   ++ " "%char :: list_ascii_of_string "days," ++ [" "%char])
                  ++ clock).
        rewrite <- !app_assoc. simpl app.
        change (Py.str_of_int d
                  ++ " "%char :: "d"%char :: "a"%char :: "y"%char :: "s"%char
                  :: ","%char :: " "%char :: clock)
          with (Py.str_of_int d
                  ++ " "%char :: list_ascii_of_string "days," ++ " "%char :: clock).
        rewrite split_sep by exact Hd.
        rewrite split_sep by reflexivity.
        rewrite split_no_sep by exact Hsp. reflexivity. }
    rewrite Hsplit.
    match goal with
    | |- context [Py.len [?a; ?b; ?c]] =>
        change (1 <? Py.len [a; b; c]) with true; cbv iota;
        change (Py.index [a; b; c] 0) with (Ok a);
        change (Py.index [a; b; c] 2) with (Ok c)
    end.
    cbn [bind]. rewrite Hcl.
    match goal with
    | |- context [Py.index [?a; ?b; ?c] 0] =>
        change (Py.index [a; b; c] 0) with (Ok a);
        change (Py.slice [a; b; c] (Some 1) None) with [b; c]
    end.
    cbn [bind]. rewrite !int_str_of_any_int by assumption. cbn [bind].
    replace (hh + 24 * d) with (24 * d + hh) by lia.
    reflexivity.
Qed.

Lemma timedelta_to_time_spec_witness :
  Z.abs (-1) <= Py.max_days /\ 0 <= 86399 < 86400 /\ 0 <= 0 < 1000000
  /\ timedelta_to_time (Py.mk_timedelta (-1) 86399 0) = Ok ("-1:59:59" : str).
Proof.
  split; [vm_compute; discriminate|]. split; [lia|]. split; [lia|].
  exact (timedelta_to_time_spec (Py.mk_timedelta (-1) 86399 0)
           ltac:(vm_compute; discriminate) ltac:(simpl; lia) ltac:(simpl; lia)).
Defined.

(** ** [add_time] *)

Lemma format_time_hms_text (h m s : Z) :
  0 <= h -> 0 <= m < 100 -> 0 <= s < 100 ->
  format_time (hms_text h m s) = Ok (hms_text h m s).
Proof.
  intros Hh Hm Hs; unfold hms_text.
  rewrite format_time_three_components;
    auto using str_of_int_lacks, two_digits_lack.
Qed.

Lemma seconds_arithmetic (total : Z) :
  0 <= total ->
  total / 86400 = total / 3600 / 24
  /\ total mod 86400
     = (total / 3600 * 3600 + total / 60 mod 60 * 60 + total mod 60) mod 86400.
Proof.
  intros H; split; [rewrite Z.div_div by lia; reflexivity|].
  f_equal. Z.div_mod_to_equations; lia.
Qed.

(** X8. The sum of two well-formed times: for hours, minutes and seconds
    [h1:m1:s1] and [h2:m2:s2] (minutes and seconds in 00-59), [add_time]
    returns the well-formed text of the total number of seconds, the
    seconds and the minutes carried at 60, provided the total stays below
    24 000 000 000 hours. *)
Theorem add_time_sum (h1 m1 s1 h2 m2 s2 : Z) :
  0 <= h1 -> 0 <= m1 < 60 -> 0 <= s1 < 60 ->
  0 <= h2 -> 0 <= m2 < 60 -> 0 <= s2 < 60 ->
  (h1 + h2) * 3600 + (m1 + m2) * 60 + (s1 + s2) < 24000000000 * 3600 ->
  add_time (hms_text h1 m1 s1) (hms_text h2 m2 s2)
  = Ok (hms_text
          (((h1 + h2) * 3600 + (m1 + m2) * 60 + (s1 + s2)) / 3600)
          (((h1 + h2) * 3600 + (m1 + m2) * 60 + (s1 + s2)) / 60 mod 60)
          (((h1 + h2) * 3600 + (m1 + m2) * 60 + (s1 + s2)) mod 60)).
Proof.
  intros Hh1 Hm1 Hs1 Hh2 Hm2 Hs2 Hbound.
  set (total := (h1 + h2) * 3600 + (m1 + m2) * 60 + (s1 + s2)) in *.
  unfold add_time.
  rewrite !format_time_hms_text by lia. cbn [bind].
  rewrite !time_to_timedelta_hms_text by lia.
  rewrite !timedelta_hms_value by lia.
  unfold Py.max_days.
  replace (h1 / 24 <=? 999999999) with true
    by (symmetry; apply Z.leb_le; Z.div_mod_to_equations; lia).
  replace (h2 / 24 <=? 999999999) with true
    by (symmetry; apply Z.leb_le; Z.div_mod_to_equations; lia).
  cbn [bind]. unfold Py.td_add, Py.td_normalise.
  cbn [Py.td_days Py.td_seconds Py.td_microseconds].
  change ((0 + 0) / 1000000) with 0. change ((0 + 0) mod 1000000) with 0.
  rewrite Z.add_0_r.
  assert (Hd : h1 / 24 + h2 / 24
               + ((h1 * 3600 + m1 * 60 + s1) mod 86400
                  + (h2 * 3600 + m2 * 60 + s2) mod 86400) / 86400
               = total / 86400)
    by (subst total; Z.div_mod_to_equations; lia).
  assert (Hr : ((h1 * 3600 + m1 * 60 + s1) mod 86400
                + (h2 * 3600 + m2 * 60 + s2) mod 86400) mod 86400
               = total mod 86400)
    by (subst total; Z.div_mod_to_equations; lia).
  rewrite Hd, Hr.
  assert (Hpos : 0 <= total) by (subst total; lia).
  replace (Z.abs (total / 86400) <=? Py.max_days) with true
    by (symmetry; apply Z.leb_le; unfold Py.max_days;
        rewrite Z.abs_eq by (apply Z.div_pos; lia);
        Z.div_mod_to_equations; lia).
  cbn [bind].
  destruct (seconds_arithmetic total Hpos) as [E1 E2].
  rewrite E1, E2.
  apply timedelta_to_time_hms.
  - split; [apply Z.div_pos; lia | apply Z.div_lt_upper_bound; lia].
  - apply Z.mod_pos_bound; lia.
  - apply Z.mod_pos_bound; lia.
Qed.

Lemma add_time_sum_witness :
  0 <= 23 /\ 0 <= 59 < 60 /\ 0 <= 30 < 60
  /\ 0 <= 0 /\ 0 <= 0 < 60 /\ 0 <= 45 < 60
  /\ (23 + 0) * 3600 + (59 + 0) * 60 + (30 + 45) < 24000000000 * 3600
  /\ add_time "23:59:30" "0:00:45" = Ok ("24:00:15" : str).
Proof.
  do 7 (split; [lia|]).
  exact (add_time_sum 23 59 30 0 0 45 ltac:(lia) ltac:(lia) ltac:(lia)
           ltac:(lia) ltac:(lia) ltac:(lia) ltac:(lia)).
Defined.

(** ** [get_day_month] *)

(** Either no offset of the string holds a date window and the error is
    raised, or the pair of some date window is returned. *)
Lemma get_day_month_outcome (s : str) :
  (get_day_month s = Raise no_date_error
   /\ forall i, date_window s i = false)
  \/ exists i, date_window s i = true
               /\ get_day_month s = Ok (window_pair s i).
Proof.
  unfold get_day_month.
  match goal with
  | |- context [for_each _ _ ?b] =>
      destruct (last_window_loop s b (day_month_step s)
                  (Py.slice s None (Some (-4))) 0 (@pair str str [] []))
        as (st' & E & Hst')
  end.
  - rewrite slice_drop_last_four, length_firstn. intros i Hi; lia.
  - unfold Py.enumerate. change 0 with (Z.of_nat 0). rewrite E; cbn [bind].
    rewrite slice_drop_last_four, length_firstn in Hst'.
    destruct Hst' as [[Hnone ->] | (i & Hi & Hw & Hlast & ->)].
    + left; split; [reflexivity|].
      intros i. destruct (date_window s i) eqn:Hw; [|reflexivity].
      pose proof (date_window_in_range s i Hw).
      rewrite <- Hw; apply Hnone; lia.
    + right; exists i; split; [exact Hw|].
      destruct (window_pair_numeric s i Hw) as [Hd Hm].
      destruct (window_pair s i) as [day month]; simpl in Hd, Hm.
      now rewrite Hd, Hm.
Qed.

(** X9. What [get_day_month] returns is a day and a month of two numeric
    characters each that stand in the string on the two sides of a slash or
    a hyphen. *)
Theorem get_day_month_result_shape (s day month : str) :
  get_day_month s = Ok (day, month) ->
  length day = 2%nat /\ length month = 2%nat
  /\ Py.isnumeric day = true /\ Py.isnumeric month = true
  /\ exists before sep after,
       s = before ++ day ++ [sep] ++ month ++ after
       /\ (sep = "/"%char \/ sep = "-"%char).
Proof.
  intros H.
  destruct (get_day_month_outcome s) as [[E _] | (i & Hw & E)];
    rewrite E in H; [discriminate|].
  assert (Hp : window_pair s i = (day, month)) by congruence. clear H.
  destruct (window_pair_numeric s i Hw) as [Hd Hm].
  rewrite Hp in Hd, Hm; cbn [fst snd] in Hd, Hm.
  pose proof (date_window_in_range s i Hw) as R.
  destruct (skipn_five s i R) as (c0 & c1 & c2 & c3 & c4 & rest & Es).
  unfold window_pair in Hp.
  replace (skipn (i + 3) s) with (skipn 3 (skipn i s)) in Hp
    by (rewrite skipn_skipn; f_equal; lia).
  rewrite Es in Hp; simpl in Hp; injection Hp as <- <-.
  repeat split; auto.
  exists (firstn i s), c2, rest. split.
  - rewrite <- (firstn_skipn i s) at 1. now rewrite Es.
  - unfold date_window, separator_at in Hw.
    rewrite nth_error_after_skipn, Es in Hw; simpl in Hw.
    apply andb_true_iff in Hw as [Hw _]. apply andb_true_iff in Hw as [Hw _].
    apply andb_true_iff in Hw as [_ Hw].
    apply orb_true_iff in Hw as [Hw|Hw]; apply Ascii.eqb_eq in Hw; auto.
Qed.

Lemma get_day_month_result_shape_witness :
  get_day_month "Stage 4: 12/07 somewhere" = Ok ("12" : str, "07" : str)
  /\ length (list_ascii_of_string "12") = 2%nat.
Proof.
  split; [reflexivity|].
  exact (proj1 (get_day_month_result_shape
                  "Stage 4: 12/07 somewhere" "12" "07" eq_refl)).
Defined.

(** X10. A string of fewer than five characters, the empty one too, holds
    no day and month: [get_day_month] raises its [ValueError]. *)
Theorem get_day_month_short_input (s : str) :
  (length s < 5)%nat -> get_day_month s = Raise no_date_error.
Proof.
  intros H.
  destruct (get_day_month_outcome s) as [[E _] | (i & Hw & _)]; [exact E|].
  apply date_window_in_range in Hw; lia.
Qed.

Lemma get_day_month_short_input_witness :
  (length (list_ascii_of_string "1/07") < 5)%nat
  /\ get_day_month "1/07" = Raise no_date_error.
Proof.
  split; [simpl; lia|].
  exact (get_day_month_short_input "1/07" ltac:(simpl; lia)).
Defined.

(** ** [convert_date] *)

Ltac month_case day month year E k :=
  exists day, month, year, k;
  split; [reflexivity|];
  split; [apply str_eqb_eq in E; rewrite E; reflexivity | reflexivity].

(** X11. [convert_date] returns only for a date of exactly three parts
    between single spaces whose middle part is, letter case apart, one of
    the twelve English month names; the result is then the third part, the
    number of the month on two digits and the first part, joined by
    hyphens. Every other input raises [ValueError]: a different number of
    parts (two spaces in a row make an empty part) or an unknown month. *)
Theorem convert_date_outcome (date : str) :
  match convert_date date with
  | Ok iso =>
      exists day month year k,
        Py.split date " " = [day; month; year]
        /\ nth_error (map Py.lower Py.month_names) k = Some (Py.lower month)
        /\ iso = year ++ "-" ++ two_digits (Z.of_nat k + 1) ++ "-" ++ day
  | Raise e => exists msg, e = ValueError msg
  end.
Proof.
  unfold convert_date.
  destruct (Py.split date " ") as [|day [|month [|year [|x l]]]];
    cbn [Py.unpack3 bind]; eauto.
  unfold Py.strptime_B_month.
  set (names := map Py.lower Py.month_names).
  vm_compute in names. subst names. cbn [Py.find_index].
  repeat match goal with
    | |- context [Py.str_eqb (Py.lower month) ?x] =>
        let E := fresh "E" in
        destruct (Py.str_eqb (Py.lower month) x) eqn:E;
        [ cbn [bind];
          first [ month_case day month year E 0%nat
                | month_case day month year E 1%nat
                | month_case day month year E 2%nat
                | month_case day month year E 3%nat
                | month_case day month year E 4%nat
                | month_case day month year E 5%nat
                | month_case day month year E 6%nat
                | month_case day month year E 7%nat
                | month_case day month year E 8%nat
                | month_case day month year E 9%nat
                | month_case day month year E 10%nat
                | month_case day month year E 11%nat ]
        | ]
    end.
  cbn [bind]; eauto.
Qed.

(** ** [validate_string] on a string *)

Lemma join_characters (l : str) : Py.join "" (map (fun c => [c]) l) = l.
Proof.
  induction l as [|c [|d l] IH]; [reflexivity | reflexivity |].
  change (Py.join "" (map (fun c => [c]) (c :: d :: l)))
    with (c :: Py.join "" (map (fun c => [c]) (d :: l))).
  now rewrite IH.
Qed.

Lemma string_constraints_dec (s : str) (min_length max_length : num)
  (options : option (list str)) :
  (if truthy_options options && negb (in_options (Some s) options)
   then false
   else if Py.num_ltb (PInt (Py.len s)) min_length
           || Py.num_ltb max_length (PInt (Py.len s))
        then false else true) = true
  <-> string_constraints s min_length max_length options.
Proof.
  unfold string_constraints.
  pose proof (num_ltb_lt (PInt (Py.len s)) min_length) as Hmin.
  pose proof (num_ltb_lt max_length (PInt (Py.len s))) as Hmax.
  assert (Hopt : truthy_options options && negb (in_options (Some s) options)
                 = false
                 <-> match options with
                     | Some (x :: l) => In s (x :: l)
                     | _ => True
                     end).
  { destruct options as [[|x l]|]; try (simpl; tauto).
    cbn [truthy_options in_options andb].
    rewrite negb_false_iff, contains_In. tauto. }
  destruct (truthy_options options && negb (in_options (Some s) options)).
  - split; [discriminate|]. intros [H _]. apply Hopt in H; discriminate.
  - destruct (Py.num_ltb (PInt (Py.len s)) min_length) eqn:E1; simpl.
    + split; [discriminate|]. intros (_ & H & _).
      exfalso; apply H, Hmin; reflexivity.
    + destruct (Py.num_ltb max_length (PInt (Py.len s))) eqn:E2.
      * split; [discriminate|]. intros (_ & _ & H).
        exfalso; apply H, Hmax; reflexivity.
      * split; [|reflexivity]. intros _.
        split; [apply Hopt; reflexivity|].
        split; intros H; [apply Hmin in H | apply Hmax in H]; discriminate.
Qed.

Ltac settle_validity D err :=
  first
    [ split;
      [ split; [intros _; apply D; reflexivity | reflexivity]
      | left; reflexivity ]
    | split;
      [ split;
        [ let H := fresh in intros H; destruct err; discriminate H
        | let H := fresh in intros H; apply D in H; discriminate H ]
      | right; destruct err; reflexivity ] ].

(** X12. Without a regex, [validate_string] on a string returns exactly
    when the string is one of the options (if any are given) and its length
    is within the two bounds, bounds included; otherwise it raises the
    caller's error object, or [ParsedValueInvalidError] carrying the string
    when none is given. The nullability flag plays no part. *)
Theorem validate_string_without_regex
  (re_fullmatch : str -> str -> result bool) (s : str)
  (min_length max_length : num) (options : option (list str))
  (can_be_none : bool) (error : option exn) :
  (validate_string re_fullmatch (Some s) min_length max_length [] options
     can_be_none error = Ok tt
   <-> string_constraints s min_length max_length options)
  /\ (validate_string re_fullmatch (Some s) min_length max_length [] options
        can_be_none error = Ok tt
      \/ validate_string re_fullmatch (Some s) min_length max_length []
           options can_be_none error
         = Raise (invalid_value error (VStr s))).
Proof.
  pose proof (string_constraints_dec s min_length max_length options) as D.
  unfold validate_string, invalid_value.
  cbn [is_none Py.len_of bind value_of_str]. rewrite andb_false_r.
  destruct (truthy_options options && negb (in_options (Some s) options));
    destruct (Py.num_ltb (PInt (Py.len s)) min_length
              || Py.num_ltb max_length (PInt (Py.len s)));
    cbn [negb]; settle_validity D error.
Qed.

(** X13. With a regex, [validate_string] asks the engine for a full match
    of the string against the regex with its spaces and newlines taken out.
    If the engine raises, that exception comes out, even when the string
    already fails another constraint. If the engine answers, the function
    returns exactly when the string matches and meets the other
    constraints, and raises the invalid-value error otherwise. *)
Theorem validate_string_with_regex
  (re_fullmatch : str -> str -> result bool) (s : str)
  (min_length max_length : num) (c : ascii) (regex : str)
  (options : option (list str)) (can_be_none : bool) (error : option exn) :
  match re_fullmatch (blank_free (c :: regex)) s with
  | Raise e =>
      validate_string re_fullmatch (Some s) min_length max_length
        (c :: regex) options can_be_none error = Raise e
  | Ok matched =>
      (validate_string re_fullmatch (Some s) min_length max_length
         (c :: regex) options can_be_none error = Ok tt
       <-> matched = true
           /\ string_constraints s min_length max_length options)
      /\ (validate_string re_fullmatch (Some s) min_length max_length
            (c :: regex) options can_be_none error = Ok tt
          \/ validate_string re_fullmatch (Some s) min_length max_length
               (c :: regex) options can_be_none error
             = Raise (invalid_value error (VStr s)))
  end.
Proof.
  pose proof (string_constraints_dec s min_length max_length options) as D.
  unfold validate_string, invalid_value.
  cbn [is_none Py.len_of bind value_of_str fullmatch_value].
  rewrite andb_false_r, join_characters.
  change (filter _ (c :: regex)) with (blank_free (c :: regex)).
  destruct (re_fullmatch (blank_free (c :: regex)) s) as [matched|e];
    cbn [bind]; [|reflexivity].
  destruct matched;
    destruct (truthy_options options && negb (in_options (Some s) options));
    destruct (Py.num_ltb (PInt (Py.len s)) min_length
              || Py.num_ltb max_length (PInt (Py.len s)));
    cbn [negb];
    first
      [ split;
        [ split; [intros _; split; [reflexivity | apply D; reflexivity]
                 | reflexivity]
        | left; reflexivity ]
      | split;
        [ split;
          [ let H := fresh in intros H; destruct error as [e|]; discriminate H
          | let H := fresh in
            intros [? H]; first [discriminate | apply D in H; discriminate H] ]
        | right; destruct error as [e|]; reflexivity ] ].
Qed.

(** ** The languages of some URL fragments *)

Lemma digit_cls_mem (c : ascii) :
  Re.cls_mem false [("0"%char, "9"%char)] c = Py.is_digit c.
Proof. destruct c as [[] [] [] [] [] [] [] []]; reflexivity. Qed.

Lemma dot_cls_mem (c : ascii) :
  Re.cls_mem true [("010"%char, "010"%char)] c = negb (Ascii.eqb "010" c).
Proof. destruct c as [[] [] [] [] [] [] [] []]; reflexivity. Qed.

Lemma star_cls (neg : bool) (ranges : list (ascii * ascii)) (s : str) :
  Re.Matches (Re.Star (Re.Cls neg ranges)) s
  <-> forallb (Re.cls_mem neg ranges) s = true.
Proof.
  split.
  - intros H; remember (Re.Star (Re.Cls neg ranges)) as r eqn:E.
    induction H; try discriminate; [reflexivity|].
    injection E as ->. inversion H; subst. simpl.
    apply andb_true_iff; split; auto.
  - induction s as [|c s IH]; simpl; intros H; [constructor|].
    apply andb_true_iff in H as [Hc Hs].
    change (c :: s) with ([c] ++ s). constructor; auto. now constructor.
Qed.

(** X14. The fragment [year] matches exactly one or more slashes followed
    by four decimal digits. *)
Theorem reg_year_language (s : str) :
  fragment_matches reg.year s
  <-> exists n d,
        (1 <= n)%nat /\ s = slashes n ++ d
        /\ length d = 4%nat /\ forallb Py.is_digit d = true.
Proof.
  rewrite (leading_slashes_shape reg.year
             (Re.Cat Re.digit_cls
                (Re.Cat Re.digit_cls (Re.Cat Re.digit_cls Re.digit_cls)))
             ltac:(vm_compute; reflexivity)).
  split; intros (n & d & Hn & -> & H); exists n, d;
    (split; [exact Hn|]); (split; [reflexivity|]).
  - unfold Re.digit_cls in H. invert_match.
    rewrite digit_cls_mem in *. simpl.
    repeat match goal with H : _ = true |- _ => rewrite H end.
    split; reflexivity.
  - destruct H as [Hl Hd].
    destruct d as [|a [|b [|c [|e [|x d]]]]]; try discriminate Hl.
    simpl in Hd. rewrite andb_true_r in Hd.
    apply andb_true_iff in Hd as [Ha Hd]; apply andb_true_iff in Hd as [Hb Hd].
    apply andb_true_iff in Hd as [Hc He].
    change [a; b; c; e] with ([a] ++ [b] ++ [c] ++ [e]).
    unfold Re.digit_cls.
    repeat constructor; rewrite digit_cls_mem; assumption.
Qed.

(** X15. The fragments [result], [overview] and [startlist] match exactly
    one or more slashes followed by their word; nothing may follow the
    word. *)
Theorem reg_word_languages (s : str) :
  (fragment_matches reg.result s
   <-> exists n, (1 <= n)%nat /\ s = slashes n ++ "result")
  /\ (fragment_matches reg.overview s
      <-> exists n, (1 <= n)%nat /\ s = slashes n ++ "overview")
  /\ (fragment_matches reg.startlist s
      <-> exists n, (1 <= n)%nat /\ s = slashes n ++ "startlist").
Proof.
  assert (Hword :
            forall pattern word body,
              Re.compile pattern = Some (Re.Cat (Re.plus (Re.Chr "/")) body) ->
              Re.accepts body word = true ->
              (forall t, Re.Matches body t -> t = word) ->
              (fragment_matches pattern s
               <-> exists n, (1 <= n)%nat /\ s = slashes n ++ word)).
  { intros pattern word body Hc Ha Hu.
    rewrite (leading_slashes_shape pattern body Hc). split.
    - intros (n & t & Hn & -> & Ht). apply Hu in Ht; subst. eauto.
    - intros (n & Hn & ->). exists n, word; repeat split; auto.
      now apply ReFacts.accepts_spec. }
  split; [|split].
  - eapply Hword; [vm_compute; reflexivity | reflexivity |].
    intros t Ht; invert_match; reflexivity.
  - eapply Hword; [vm_compute; reflexivity | reflexivity |].
    intros t Ht; invert_match; reflexivity.
  - eapply Hword; [vm_compute; reflexivity | reflexivity |].
    intros t Ht; invert_match; reflexivity.
Qed.

(** X16. The fragment [anything] matches exactly the strings that begin
    with a slash and hold no newline. *)
Theorem reg_anything_language (s : str) :
  fragment_matches reg.anything s
  <-> exists t, s = "/"%char :: t /\ has_char "010" t = false.
Proof.
  rewrite (leading_slashes_shape reg.anything (Re.Star Re.dot_cls)
             ltac:(vm_compute; reflexivity)).
  assert (Hdot : forall t,
             Re.Matches (Re.Star Re.dot_cls) t <-> has_char "010" t = false).
  { intros t; unfold Re.dot_cls; rewrite star_cls.
    induction t as [|c t IH]; [simpl; tauto|].
    change (has_char "010" (c :: t))
      with (Ascii.eqb "010" c || has_char "010" t).
    cbn [forallb].
    rewrite dot_cls_mem, andb_true_iff, orb_false_iff, negb_true_iff, IH.
    tauto. }
  split.
  - intros (n & t & Hn & -> & Ht). destruct n as [|n]; [lia|].
    exists (slashes n ++ t); split; [reflexivity|].
    apply has_char_false_app; split; [|now apply Hdot].
    clear; induction n as [|n IH]; simpl; auto.
  - intros (t & -> & Ht). exists 1%nat, t; repeat split; auto.
    now apply Hdot.
Qed.

(** ** [parse_select_menu] *)

Lemma select_loop_spec (options : list element) (acc : list dict) :
  match select_loop options acc with
  | Found items =>
      exists entries,
        items = acc ++ entries /\ Forall2 menu_entry options entries
  | KeyError key =>
      key = "value"
      /\ exists option,
           In option options
           /\ get_item (attrs option) "value" = KeyError "value"
  end.
Proof.
  revert acc; induction options as [|o options IH]; intros acc;
    cbn [select_loop].
  - exists []; split; [now rewrite app_nil_r | constructor].
  - assert (Hkey : forall d k key, get_item d k = KeyError key -> key = k).
    { induction d as [|[k' v] d IHd]; simpl; intros k key H.
      - now injection H.
      - destruct (Py.str_eqb k' k); [discriminate | eauto]. }
    destruct (get_item (attrs o) "value") as [value|key] eqn:E.
    + match goal with
      | |- context [select_loop options ?a] =>
          specialize (IH a); destruct (select_loop options a) as [items|key]
      end.
      * destruct IH as (entries & -> & Hall).
        eexists (_ :: entries).
        split; [rewrite <- app_assoc; reflexivity|].
        constructor; [exists value; split; [exact E | reflexivity] | exact Hall].
      * destruct IH as (-> & option & Hin & Ho).
        split; [reflexivity|]. exists option; split; [now right | exact Ho].
    + pose proof (Hkey _ _ _ E) as ->.
      split; [reflexivity|]. exists o; split; [now left | exact E].
Qed.

(** X17. [parse_select_menu] gives one [{value, text}] entry per option
    element that [find("option")] lists, in the same order, each with the
    option's [value] attribute and its text. It raises [KeyError('value')]
    exactly when some option has no [value] attribute, and nothing else. *)
Theorem parse_select_menu_spec (html : Type)
  (find : html -> str -> list element) (select_html : html) :
  match parse_select_menu html find select_html with
  | Found items => Forall2 menu_entry (find select_html "option") items
  | KeyError key =>
      key = "value"
      /\ exists option,
           In option (find select_html "option")
           /\ get_item (attrs option) "value" = KeyError "value"
  end.
Proof.
  unfold parse_select_menu.
  pose proof (select_loop_spec (find select_html "option") []) as H.
  destruct (select_loop (find select_html "option") []) as [items|key];
    [|exact H].
  destruct H as (entries & -> & Hall). exact Hall.
Qed.
